(** * Auto-binder: a shallow embedding of [main.py]

    The script fetches the users and the systems of a directory service
    through a paginated REST API, keeps the systems created within the
    last 24 hours, matches each of them to a user by normalised host
    name, and binds the pair.

    Conventions of the embedding.
    - A Python [str] is a [string]; its characters are code points
      below 256, which covers the ASCII host names, user names and
      timestamps the script handles.
    - A decoded JSON document is a [value]; numbers are integers.
    - The directory service is a function from the requests sent so far
      and the current request to a [reply]; the clock is a function from
      the number of earlier readings to a time.  Functions that talk to
      the service are written in the monad [M], which threads the log of
      requests and carries Python exceptions.
    - [print] calls are left out, except where evaluating the printed
      expression can raise. *)

From Stdlib Require Import ZArith Ascii String List Lia Bool.
From stdpp Require Import base decidable list strings gmap pretty.

Local Open Scope string_scope.
Local Open Scope Z_scope.

#[local] Set Warnings "-register-all".

(** ** Python strings *)

Module PyStr.

(** [s.startswith(p)] *)
Fixpoint startswith (s p : string) {struct p} : bool :=
  match p with
  | EmptyString => true
  | String a p' =>
      match s with
      | EmptyString => false
      | String b s' => Ascii.eqb a b && startswith s' p'
      end
  end.

(** [needle in hay] for two strings. *)
Fixpoint contains (hay needle : string) {struct hay} : bool :=
  startswith hay needle
  || match hay with
     | EmptyString => false
     | String _ hay' => contains hay' needle
     end.

(** [str.lower] on one character: A-Z, and the Latin-1 capitals
    U+00C0..U+00DE except the multiplication sign U+00D7, move up by
    32; every other code point below 256 is its own lower case. *)
Definition lower_char (c : ascii) : ascii :=
  let n := N_of_ascii c in
  if ((65 <=? n) && (n <=? 90))%N
     || ((192 <=? n) && (n <=? 222) && negb (n =? 215))%N
  then ascii_of_N (n + 32)
  else c.

(** [s.lower()] *)
Fixpoint lower (s : string) : string :=
  match s with
  | EmptyString => EmptyString
  | String c s' => String (lower_char c) (lower s')
  end.

(** The scan of [s.replace(old, new)] for a non-empty [old]: left to
    right, non-overlapping.  [skip] counts the characters of a matched
    occurrence that are still to be passed over. *)
Fixpoint replace_scan (old new : string) (skip : nat) (s : string) : string :=
  match s with
  | EmptyString => EmptyString
  | String c s' =>
      match skip with
      | S k => replace_scan old new k s'
      | O =>
          if startswith s old
          then new ++ replace_scan old new (Nat.pred (String.length old)) s'
          else String c (replace_scan old new O s')
      end
  end.

(** With an empty [old], Python puts [new] before every character and
    at the end. *)
Fixpoint intersperse (new s : string) : string :=
  match s with
  | EmptyString => new
  | String c s' => new ++ String c (intersperse new s')
  end.

(** [s.replace(old, new)] *)
Definition replace (s old new : string) : string :=
  match old with
  | EmptyString => intersperse new s
  | String _ _ => replace_scan old new O s
  end.

End PyStr.

(** ** The host-name normalisation (lines 120-121) *)

(** [normalize_hostname(name)] *)
Definition normalize_hostname (name : string) : string :=
  PyStr.lower
    (PyStr.replace (PyStr.replace (PyStr.replace name "WIN-" "") "-" "") "_" "").

(** ** Python values *)

(** What [response.json()] decodes to. A dictionary keeps its keys in
    insertion order, as Python does; its keys are distinct. *)
Inductive value : Type :=
| VNone
| VBool (b : bool)
| VInt (n : Z)
| VStr (s : string)
| VList (l : list value)
| VDict (d : list (string * value)).

Inductive exn : Type :=
| RequestException   (* requests.exceptions.RequestException and its subclasses *)
| AttributeError
| TypeError
| KeyError
| ValueError.

Definition exn_eqb (a b : exn) : bool :=
  match a, b with
  | RequestException, RequestException
  | AttributeError, AttributeError
  | TypeError, TypeError
  | KeyError, KeyError
  | ValueError, ValueError => true
  | _, _ => false
  end.

Module Py.

(** [bool(v)], the test behind [if v] and [not v]. *)
Definition truthy (v : value) : bool :=
  match v with
  | VNone => false
  | VBool b => b
  | VInt n => negb (n =? 0)
  | VStr s => negb (String.eqb s "")
  | VList l => match l with [] => false | _ :: _ => true end
  | VDict d => match d with [] => false | _ :: _ => true end
  end.

(** Lookup of a key in a dictionary's entries. *)
Fixpoint lookup (d : list (string * value)) (key : string) : option value :=
  match d with
  | [] => None
  | (k, v) :: d' => if String.eqb k key then Some v else lookup d' key
  end.

(** The elements a [for] loop or [list.extend] draws from [v]: the
    elements of a list, the keys of a dictionary, the characters of a
    string.  Other values are not iterable. *)
Definition iter (v : value) : option (list value) :=
  match v with
  | VList l => Some l
  | VDict d => Some (List.map (fun kv => VStr (fst kv)) d)
  | VStr s => Some (List.map (fun c => VStr (String c EmptyString)) (list_ascii_of_string s))
  | VNone | VBool _ | VInt _ => None
  end.

Definition hex_digit (n : N) : ascii :=
  if (n <? 10)%N then ascii_of_N (48 + n) else ascii_of_N (87 + n).

Definition double_quote : ascii := "034"%char.
Definition single_quote : ascii := "039"%char.
Definition backslash : ascii := "092"%char.

(** One character of [repr] of a string delimited by [quote]. *)
Definition repr_char (quote c : ascii) : string :=
  let n := N_of_ascii c in
  if Ascii.eqb c quote || Ascii.eqb c backslash then String backslash (String c EmptyString)
  else if (n =? 9)%N then String backslash "t"
  else if (n =? 10)%N then String backslash "n"
  else if (n =? 13)%N then String backslash "r"
  else if (n <? 32)%N || (n =? 127)%N || ((128 <=? n) && (n <=? 160))%N || (n =? 173)%N
  then String backslash
         (String "x" (String (hex_digit (n / 16)) (String (hex_digit (n mod 16)) EmptyString)))
  else String c EmptyString.

Fixpoint has_char (c : ascii) (s : string) : bool :=
  match s with
  | EmptyString => false
  | String a s' => Ascii.eqb a c || has_char c s'
  end.

(** [repr(s)] for a string: single quotes, unless the string holds a
    single quote and no double quote. *)
Definition repr_str (s : string) : string :=
  let quote :=
    if has_char single_quote s && negb (has_char double_quote s)
    then double_quote else single_quote in
  String quote
    (String.concat "" (List.map (repr_char quote) (list_ascii_of_string s))
     ++ String quote EmptyString).

(** [repr(v)] *)
Fixpoint repr (v : value) : string :=
  match v with
  | VNone => "None"
  | VBool true => "True"
  | VBool false => "False"
  | VInt n => pretty n
  | VStr s => repr_str s
  | VList l => "[" ++ String.concat ", " (List.map repr l) ++ "]"
  | VDict d =>
      "{" ++ String.concat ", "
               (List.map (fun kv => repr_str (fst kv) ++ ": " ++ repr (snd kv)) d)
          ++ "}"
  end.

(** [str(v)], also what an f-string substitutes for [{v}]. *)
Definition str (v : value) : string :=
  match v with
  | VStr s => s
  | _ => repr v
  end.

End Py.

(** ** [datetime.strptime] *)

(** A model of the standard library's [datetime.strptime] for the
    directives the script's two formats use.  The library turns the
    format into a regular expression, matches it case-insensitively at
    the start of the text, rejects text left over after the match,
    and builds the [datetime], which checks the fields.  Every failure
    is a [ValueError].  A [datetime] is represented by its distance from
    0001-01-01T00:00:00 in microseconds. *)
Module Datetime.

Inductive directive : Type :=
| Year         (* %Y *)
| Month        (* %m *)
| Day          (* %d *)
| Hour         (* %H *)
| Minute       (* %M *)
| Second       (* %S *)
| Fraction     (* %f *)
| Literal (c : ascii).

(** The directives of a format string; [None] for a directive outside
    the seven above. *)
Fixpoint compile (format : string) : option (list directive) :=
  match format with
  | EmptyString => Some []
  | String "%" (String c rest) =>
      let d :=
        if Ascii.eqb c "Y" then Some Year
        else if Ascii.eqb c "m" then Some Month
        else if Ascii.eqb c "d" then Some Day
        else if Ascii.eqb c "H" then Some Hour
        else if Ascii.eqb c "M" then Some Minute
        else if Ascii.eqb c "S" then Some Second
        else if Ascii.eqb c "f" then Some Fraction
        else None in
      match d, compile rest with
      | Some d, Some ds => Some (d :: ds)
      | _, _ => None
      end
  | String c rest =>
      match compile rest with
      | Some ds => Some (Literal c :: ds)
      | None => None
      end
  end.

Definition digit (c : ascii) : option Z :=
  let n := N_of_ascii c in
  if ((48 <=? n) && (n <=? 57))%N then Some (Z.of_N n - 48) else None.

(** Exactly [n] decimal digits at the start of [s]: their value, read
    after [acc], and the rest of [s]. *)
Fixpoint digits (n : nat) (acc : Z) (s : string) : option (Z * string) :=
  match n with
  | O => Some (acc, s)
  | S n' =>
      match s with
      | EmptyString => None
      | String c s' =>
          match digit c with
          | Some d => digits n' (10 * acc + d) s'
          | None => None
          end
      end
  end.

(** One branch of a directive's pattern: [n] digits whose value lies
    in [lo..hi]. *)
Definition branch (n : nat) (lo hi : Z) (s : string) : list (Z * string) :=
  match digits n 0 s with
  | Some (v, rest) => if (lo <=? v) && (v <=? hi) then [(v, rest)] else []
  | None => []
  end.

(** The branch of [%d] for a space and a digit 1-9. *)
Definition space_branch (s : string) : list (Z * string) :=
  match s with
  | String " " s' => branch 1 1 9 s'
  | _ => []
  end.

(** The branch of [%f] with [n] digits; the value is padded on the
    right to six digits. *)
Definition fraction_branch (n : nat) (s : string) : list (Z * string) :=
  match digits n 0 s with
  | Some (v, rest) => [(v * 10 ^ (6 - Z.of_nat n), rest)]
  | None => []
  end.

(** The ways a field directive can match at the start of [s], in the
    order the regular expression tries them. *)
Definition alternatives (d : directive) (s : string) : list (Z * string) :=
  match d with
  | Year => branch 4 0 9999 s                                       (* \d\d\d\d *)
  | Month => branch 2 10 12 s ++ branch 2 1 9 s ++ branch 1 1 9 s   (* 1[0-2]|0[1-9]|[1-9] *)
  | Day =>                                   (* 3[0-1]|[1-2]\d|0[1-9]|[1-9]| [1-9] *)
      branch 2 30 31 s ++ branch 2 10 29 s ++ branch 2 1 9 s ++ branch 1 1 9 s
      ++ space_branch s
  | Hour => branch 2 20 23 s ++ branch 2 0 19 s ++ branch 1 0 9 s   (* 2[0-3]|[0-1]\d|\d *)
  | Minute => branch 2 0 59 s ++ branch 1 0 9 s                     (* [0-5]\d|\d *)
  | Second => branch 2 60 61 s ++ branch 2 0 59 s ++ branch 1 0 9 s (* 6[0-1]|[0-5]\d|\d *)
  | Fraction =>                                                     (* [0-9]{1,6} *)
      fraction_branch 6 s ++ fraction_branch 5 s ++ fraction_branch 4 s
      ++ fraction_branch 3 s ++ fraction_branch 2 s ++ fraction_branch 1 s
  | Literal _ => []
  end%list.

Record fields : Type := Fields {
  year : Z; month : Z; day : Z; hour : Z; minute : Z; second : Z; microsecond : Z
}.

(** The fields before anything is parsed. *)
Definition defaults : fields := Fields 1900 1 1 0 0 0 0.

Definition set_field (d : directive) (v : Z) (f : fields) : fields :=
  match d with
  | Year => Fields v (month f) (day f) (hour f) (minute f) (second f) (microsecond f)
  | Month => Fields (year f) v (day f) (hour f) (minute f) (second f) (microsecond f)
  | Day => Fields (year f) (month f) v (hour f) (minute f) (second f) (microsecond f)
  | Hour => Fields (year f) (month f) (day f) v (minute f) (second f) (microsecond f)
  | Minute => Fields (year f) (month f) (day f) (hour f) v (second f) (microsecond f)
  | Second => Fields (year f) (month f) (day f) (hour f) (minute f) v (microsecond f)
  | Fraction => Fields (year f) (month f) (day f) (hour f) (minute f) (second f) v
  | Literal _ => f
  end.

Fixpoint first_match {A B} (f : A -> option B) (l : list A) : option B :=
  match l with
  | [] => None
  | a :: l' => match f a with Some b => Some b | None => first_match f l' end
  end.

(** The regular-expression match: the first way, backtracking over the
    alternatives in order, to match all directives at the start of
    [s].  It returns the fields and the text after the match. *)
Fixpoint match_directives (ds : list directive) (s : string) (f : fields)
    : option (fields * string) :=
  match ds with
  | [] => Some (f, s)
  | Literal c :: ds' =>
      match s with
      | EmptyString => None
      | String b s' =>
          if Ascii.eqb (PyStr.lower_char b) (PyStr.lower_char c)
          then match_directives ds' s' f
          else None
      end
  | d :: ds' =>
      first_match (fun alt => match_directives ds' (snd alt) (set_field d (fst alt) f))
                  (alternatives d s)
  end.

Definition is_leap (y : Z) : bool :=
  (y mod 4 =? 0) && (negb (y mod 100 =? 0) || (y mod 400 =? 0)).

Definition days_in_month (y m : Z) : Z :=
  if m =? 2 then (if is_leap y then 29 else 28)
  else if (m =? 4) || (m =? 6) || (m =? 9) || (m =? 11) then 30
  else 31.

Definition days_before_year (y : Z) : Z :=
  let y1 := y - 1 in y1 * 365 + y1 / 4 - y1 / 100 + y1 / 400.

Fixpoint days_before_month (y : Z) (m : nat) : Z :=
  match m with
  | O => 0
  | S m' => days_before_month y m' + days_in_month y (Z.of_nat m)
  end.

(** [date.toordinal()]: 1 for 0001-01-01. *)
Definition ordinal (y m d : Z) : Z :=
  days_before_year y + days_before_month y (Z.to_nat (m - 1)) + d.

(** The checks of the [datetime] constructor. *)
Definition valid (f : fields) : bool :=
  (1 <=? year f) && (year f <=? 9999)
  && (1 <=? month f) && (month f <=? 12)
  && (1 <=? day f) && (day f <=? days_in_month (year f) (month f))
  && (0 <=? hour f) && (hour f <=? 23)
  && (0 <=? minute f) && (minute f <=? 59)
  && (0 <=? second f) && (second f <=? 59)
  && (0 <=? microsecond f) && (microsecond f <=? 999999).

Definition microseconds (f : fields) : Z :=
  (((ordinal (year f) (month f) (day f) - 1) * 24 + hour f) * 60 + minute f) * 60 * 1000000
  + second f * 1000000 + microsecond f.

(** [datetime.strptime(text, format)]; [None] stands for [ValueError]. *)
Definition strptime (text format : string) : option Z :=
  match compile format with
  | None => None
  | Some ds =>
      match match_directives ds text defaults with
      | Some (f, EmptyString) => if valid f then Some (microseconds f) else None
      | _ => None
      end
  end.

(** [timedelta(hours=h)] in microseconds. *)
Definition timedelta_hours (h : Z) : Z := h * 3600 * 1000000.

End Datetime.

(** ** The HTTP session *)

(** A request the script sends through [session]: the URL, and for a
    POST the [json=] payload. *)
Inductive request : Type :=
| GET (url : string)
| POST (url : string) (payload : value).

(** What comes back: [ConnectionError] when [session.get] or
    [session.post] raises instead of returning (no connection, timeout;
    a [RequestException]), otherwise a response with its status code
    and the value [json()] decodes its body to.  Bodies that are not
    JSON are not modelled. *)
Inductive reply : Type :=
| ConnectionError
| Response (status_code : Z) (json : value).

(** The state threaded through a run: the requests sent so far, oldest
    first, and how often the clock was read. *)
Record world : Type := World { log : list request; clock_reads : nat }.

(** How a computation ends: with a value, with a Python exception, or
    with the fuel of a [while True] loop used up. *)
Inductive outcome (A : Type) : Type :=
| Ok (a : A)
| Raise (e : exn)
| OutOfFuel.
Arguments Ok {A} a.
Arguments Raise {A} e.
Arguments OutOfFuel {A}.

Definition M (A : Type) : Type := world -> outcome A * world.

Definition ret {A} (a : A) : M A := fun w => (Ok a, w).

Definition raise {A} (e : exn) : M A := fun w => (Raise e, w).

Definition out_of_fuel {A} : M A := fun w => (OutOfFuel, w).

Definition bind {A B} (m : M A) (k : A -> M B) : M B :=
  fun w =>
    match m w with
    | (Ok a, w') => k a w'
    | (Raise e, w') => (Raise e, w')
    | (OutOfFuel, w') => (OutOfFuel, w')
    end.

Notation "x <- m ;; k" := (bind m (fun x => k))
  (at level 100, m at next level, right associativity).
Notation "m ;;; k" := (bind m (fun _ => k))
  (at level 100, right associativity).

(** [try: body  except E: handler] for the exceptions [catches] selects. *)
Definition try_except {A} (body : M A) (catches : exn -> bool) (handler : M A) : M A :=
  fun w =>
    match body w with
    | (Raise e, w') => if catches e then handler w' else (Raise e, w')
    | r => r
    end.

(** [for x in xs: body x] *)
Fixpoint for_each {A} (xs : list A) (body : A -> M unit) : M unit :=
  match xs with
  | [] => ret tt
  | x :: xs' => body x ;;; for_each xs' body
  end.

(** [v.get(key, default)]: only a dictionary has [get]. *)
Definition dict_get (v : value) (key : string) (default : value) : M value :=
  match v with
  | VDict d => ret (match Py.lookup d key with Some x => x | None => default end)
  | _ => raise AttributeError
  end.

(** [v[key]] for a dictionary [v]. *)
Definition subscript (v : value) (key : string) : M value :=
  match v with
  | VDict d => match Py.lookup d key with Some x => ret x | None => raise KeyError end
  | _ => raise TypeError
  end.

(** [v.lower()]: only a string has [lower]. *)
Definition str_lower (v : value) : M string :=
  match v with
  | VStr s => ret (PyStr.lower s)
  | _ => raise AttributeError
  end.

(** [results.extend(items)] *)
Definition extend (results : list value) (items : value) : M (list value) :=
  match Py.iter items with
  | Some l => ret (results ++ l)%list
  | None => raise TypeError
  end.

Definition BASE_URL : string := "https://console.jumpcloud.com/api".

(** [response.ok]: [raise_for_status] would not raise. *)
Definition ok (status_code : Z) : bool :=
  negb ((400 <=? status_code) && (status_code <? 600)).

Section Service.

(** The directory service and the clock ([datetime.utcnow()], in
    microseconds since 0001-01-01T00:00:00). *)
Variable service : list request -> request -> reply.
Variable clock : nat -> Z.

Definition send (r : request) : M (Z * value) :=
  fun w =>
    let w' := World (log w ++ [r]) (clock_reads w) in
    match service (log w) r with
    | ConnectionError => (Raise RequestException, w')
    | Response status_code json => (Ok (status_code, json), w')
    end.

Definition session_get (url : string) : M (Z * value) := send (GET url).

Definition session_post (url : string) (payload : value) : M (Z * value) :=
  send (POST url payload).

Definition utcnow : M Z :=
  fun w => (Ok (clock (clock_reads w)), World (log w) (S (clock_reads w))).

(** [response.raise_for_status()] *)
Definition raise_for_status (response : Z * value) : M unit :=
  if ok (fst response) then ret tt else raise RequestException.

(** *** [get_all] (lines 23-50) *)

Inductive loop_step : Type :=
| Break
| Continue (results : list value) (skip : Z) (seen_pages : gset string).

Definition page_url (endpoint : string) (use_v2 : bool) (limit skip : Z) : string :=
  let prefix := if use_v2 then "/v2" else "" in
  BASE_URL ++ prefix ++ "/" ++ endpoint ++ "?limit=" ++ pretty limit ++ "&skip=" ++ pretty skip.

(** One turn of the [while True] loop: the [try] block with its handler. *)
Definition get_all_step (endpoint : string) (use_v2 : bool) (limit : Z)
    (results : list value) (skip : Z) (seen_pages : gset string) : M loop_step :=
  let url := page_url endpoint use_v2 limit skip in
  try_except
    (response <- session_get url ;;
     raise_for_status response ;;;
     let data := snd response in
     items <- dict_get data "results" data ;;
     let page_fingerprint := Py.str items in
     if negb (Py.truthy items) || bool_decide (page_fingerprint ∈ seen_pages)
     then ret Break
     else
       let seen_pages := seen_pages ∪ {[page_fingerprint]} in
       results <- extend results items ;;
       ret (Continue results (skip + limit) seen_pages))
    (exn_eqb RequestException)
    (ret Break).

Fixpoint get_all_loop (fuel : nat) (endpoint : string) (use_v2 : bool) (limit : Z)
    (results : list value) (skip : Z) (seen_pages : gset string) : M (list value) :=
  match fuel with
  | O => out_of_fuel
  | S fuel' =>
      step <- get_all_step endpoint use_v2 limit results skip seen_pages ;;
      match step with
      | Break => ret results
      | Continue results skip seen_pages =>
          get_all_loop fuel' endpoint use_v2 limit results skip seen_pages
      end
  end.

Definition get_all (fuel : nat) (endpoint : string) (use_v2 : bool) : M (list value) :=
  get_all_loop fuel endpoint use_v2 100 [] 0 ∅.

(** *** The association manager (lines 53-107) *)

Definition associations_url (system_id : value) : string :=
  BASE_URL ++ "/v2/systems/" ++ Py.str system_id ++ "/associations".

Definition association_payload (op : string) (user_id : value) : value :=
  VDict [("op", VStr op); ("type", VStr "user"); ("id", user_id)].

(** [get_bound_users(system_id)]: any exception gives the empty list. *)
Definition get_bound_users (system_id : value) : M value :=
  let url := associations_url system_id ++ "?type=user" in
  try_except
    (res <- session_get url ;;
     raise_for_status res ;;;
     ret (snd res))
    (fun _ => true)
    (ret (VList [])).

(** [unbind_user(system_id, user_id)] *)
Definition unbind_user (system_id user_id : value) : M bool :=
  let url := associations_url system_id in
  let payload := association_payload "remove" user_id in
  res <- session_post url payload ;;
  ret (ok (fst res)).

(** [bind_user(system_id, user_id)].  The branches on [status_code < 300]
    only choose what is printed. *)
Definition bind_user (system_id user_id : value) : M bool :=
  let url := associations_url system_id in
  let payload := association_payload "add" user_id in
  res <- session_post url payload ;;
  res <- (if fst res =? 409
          then unbind_user system_id user_id ;;;
               session_post url payload
          else ret res) ;;
  ret (ok (fst res)).

(** *** The recency check (lines 110-117) *)

(** [datetime.strptime(timestamp, format)] on a Python value: a value
    that is not a string is a [TypeError]. *)
Definition strptime (timestamp : value) (format : string) : M Z :=
  match timestamp with
  | VStr s =>
      match Datetime.strptime s format with
      | Some t => ret t
      | None => raise ValueError
      end
  | _ => raise TypeError
  end.

(** [was_created_within_last_24_hours(timestamp)] *)
Definition was_created_within_last_24_hours (timestamp : value) : M bool :=
  if negb (Py.truthy timestamp) then ret false
  else
    created_time <-
      try_except (strptime timestamp "%Y-%m-%dT%H:%M:%S.%fZ")
                 (exn_eqb ValueError)
                 (strptime timestamp "%Y-%m-%dT%H:%M:%SZ") ;;
    now <- utcnow ;;
    ret (now - created_time <=? Datetime.timedelta_hours 24).

(** *** The orchestrator (lines 124-167) *)

(** The comprehension of line 134:
    [[sys for sys in systems if was_created_within_last_24_hours(sys.get("created"))]]. *)
Fixpoint recent_systems (systems : list value) : M (list value) :=
  match systems with
  | [] => ret []
  | sys :: systems' =>
      created <- dict_get sys "created" VNone ;;
      keep <- was_created_within_last_24_hours created ;;
      rest <- recent_systems systems' ;;
      ret (if keep then sys :: rest else rest)
  end.

(** Line 149: the normalised user name of [user]. *)
Definition uname_of (user : value) : M string :=
  username <- dict_get user "username" (VStr "") ;;
  lowered <- str_lower username ;;
  ret (PyStr.replace (PyStr.replace lowered "." "") "_" "").

(** The matcher, lines 147-152: [match] is [None] or the first user
    whose normalised name is a substring of [clean_name]. *)
Fixpoint find_match (users : list value) (clean_name : string) : M value :=
  match users with
  | [] => ret VNone
  | user :: users' =>
      uname <- uname_of user ;;
      if PyStr.contains clean_name uname then ret user
      else find_match users' clean_name
  end.

(** Lines 138-140: the normalised host name of [system]. *)
Definition clean_name_of (system : value) : M string :=
  hostname <- (h <- dict_get system "hostname" (VStr "") ;; str_lower h) ;;
  ret (normalize_hostname hostname).

(** The body of the loop over the recent systems, lines 138-164. *)
Definition process_system (users : list value) (system : value) : M unit :=
  sys_id <- dict_get system "id" VNone ;;
  clean_name <- clean_name_of system ;;
  bound <- get_bound_users sys_id ;;
  if Py.truthy bound then ret tt
  else
    match_ <- find_match users clean_name ;;
    if negb (Py.truthy match_) then ret tt
    else
      subscript match_ "username" ;;;
      (if Py.truthy bound
       then
         match Py.iter bound with
         | Some us =>
             for_each us (fun u =>
               user_id <- dict_get u "id" VNone ;;
               unbind_user sys_id user_id ;;;
               ret tt)
         | None => raise TypeError
         end
       else ret tt) ;;;
      user_id <- subscript match_ "id" ;;
      bind_user sys_id user_id ;;;
      ret tt.

(** [main()]; [fuel] bounds the turns of each pagination loop. *)
Definition main (fuel : nat) : M unit :=
  users <- get_all fuel "systemusers" false ;;
  systems <- get_all fuel "systems" false ;;
  recent <- recent_systems systems ;;
  for_each recent (process_system users).

End Service.

Arguments get_all_loop service fuel endpoint use_v2 limit results skip seen_pages w : simpl nomatch.

(** A run starts with no request sent and the clock unread. *)
Definition start : world := World [] 0.

(** * Vocabulary of the statements *)

(** The world after one more request. *)
Definition sent (w : world) (r : request) : world :=
  World (log w ++ [r]) (clock_reads w).

(** The world after one more reading of the clock. *)
Definition tick (w : world) : world := World (log w) (S (clock_reads w)).

(** The item list [get_all] takes from a reply: [data.get("results", data)]
    of a response that passes [raise_for_status] and whose body is a
    dictionary. *)
Definition page_items (r : reply) : option value :=
  match r with
  | Response status_code (VDict d) =>
      if ok status_code
      then Some (match Py.lookup d "results" with Some items => items | None => VDict d end)
      else None
  | _ => None
  end.

(** A transport-level failure: the request raises, or the status makes
    [raise_for_status] raise. *)
Definition fails (r : reply) : bool :=
  match r with
  | ConnectionError => true
  | Response status_code _ => negb (ok status_code)
  end.

(** The page fingerprint of an item list. *)
Definition fingerprint (items : list value) : string := Py.str (VList items).

(** The first [n] page requests of a fetch that starts at [skip]. *)
Fixpoint page_requests (endpoint : string) (use_v2 : bool) (limit skip : Z) (n : nat)
    : list request :=
  match n with
  | O => []
  | S n' =>
      GET (page_url endpoint use_v2 limit skip)
      :: page_requests endpoint use_v2 limit (skip + limit) n'
  end.

(** A successful response whose body carries [items] under "results". *)
Definition page (items : list value) : reply :=
  Response 200 (VDict [("results", VList items)]).

(** A mock service that answers the requests in order from a script,
    whatever they are, and drops the connection once the script is
    used up. *)
Definition scripted (replies : list reply) : list request -> request -> reply :=
  fun h _ => nth (length h) replies ConnectionError.

(** The association service of a mock directory: a bind is refused with
    409 until an unbind was sent. *)
Definition conflict_once : list request -> request -> reply :=
  fun h r =>
    match r with
    | POST _ (VDict (("op", VStr "add") :: _)) =>
        if existsb (fun q => match q with
                             | POST _ (VDict (("op", VStr "remove") :: _)) => true
                             | _ => false
                             end) h
        then Response 200 VNone
        else Response 409 VNone
    | _ => Response 200 VNone
    end.

(** The time a timestamp parses to: with the format that has a
    fraction, else with the one that has none. *)
Definition created_time (timestamp : string) : option Z :=
  match Datetime.strptime timestamp "%Y-%m-%dT%H:%M:%S.%fZ" with
  | Some t => Some t
  | None => Datetime.strptime timestamp "%Y-%m-%dT%H:%M:%SZ"
  end.

(** A user that normalises and does not match [clean_name]. *)
Definition passed_over (clean_name : string) (user : value) : Prop :=
  exists uname,
    (forall w, uname_of user w = (Ok uname, w))
    /\ PyStr.contains clean_name uname = false.

(** The elements [list.extend] takes from a page. *)
Definition page_elements (items : value) : list value :=
  match Py.iter items with
  | Some l => l
  | None => []
  end.

(** What [get_bound_users] makes of a reply. *)
Definition bound_users_of (r : reply) : value :=
  match r with
  | Response status_code body => if ok status_code then body else VList []
  | ConnectionError => VList []
  end.

(** The request [get_bound_users] sends for a system. *)
Definition bound_users_request (system_id : value) : request :=
  GET (associations_url system_id ++ "?type=user").

(** [system.get("id")] for a system record. *)
Definition id_of (d : list (string * value)) : value :=
  match Py.lookup d "id" with
  | Some x => x
  | None => VNone
  end.

(** Whether a request is a GET. *)
Definition is_get (r : request) : bool :=
  match r with
  | GET _ => true
  | POST _ _ => false
  end.

(** * Properties *)

(** ** Strings *)

Example normalize_hostname_upper :
  normalize_hostname "WIN-JDOE-LAPTOP" = "jdoelaptop".
Proof. reflexivity. Qed.

Example normalize_hostname_lowered :
  normalize_hostname (PyStr.lower "WIN-JDOE-LAPTOP") = "winjdoelaptop".
Proof. reflexivity. Qed.

Example replace_all_occurrences :
  PyStr.replace "aXbXXc" "X" "--" = "a--b----c".
Proof. reflexivity. Qed.

Example replace_non_overlapping :
  PyStr.replace "aaaa" "aa" "b" = "bb" /\ PyStr.replace "aaa" "aa" "b" = "ba".
Proof. split; reflexivity. Qed.

Example replace_empty_old :
  PyStr.replace "abc" "" "-" = "-a-b-c-".
Proof. reflexivity. Qed.

Lemma startswith_app (p s : string) : PyStr.startswith (p ++ s) p = true.
Proof.
  induction p as [|a p IH]; simpl; [reflexivity|].
  rewrite Ascii.eqb_refl. exact IH.
Qed.

Lemma contains_empty (hay : string) : PyStr.contains hay "" = true.
Proof. destruct hay; reflexivity. Qed.

(** Once an occurrence has matched, the scan passes over the rest of it. *)
Lemma replace_scan_skip (old new t s : string) :
  PyStr.replace_scan old new (String.length t) (t ++ s)
  = PyStr.replace_scan old new O s.
Proof. induction t as [|c t IH]; simpl; [reflexivity | exact IH]. Qed.

(** An occurrence of [old] at the start is replaced and the scan goes
    on behind it. *)
Lemma replace_leading_occurrence (a : ascii) (old' new s : string) :
  PyStr.replace (String a old' ++ s) (String a old') new
  = new ++ PyStr.replace s (String a old') new.
Proof.
  unfold PyStr.replace.
  change (String a old' ++ s) with (String a (old' ++ s)).
  cbn [PyStr.replace_scan].
  change (String a (old' ++ s)) with (String a old' ++ s).
  rewrite startswith_app.
  change (Nat.pred (String.length (String a old'))) with (String.length old').
  now rewrite replace_scan_skip.
Qed.

(** C8. For every host name [h], normalising ["WIN-" ++ h] gives the
    same result as normalising [h]. *)
Theorem normalize_hostname_strips_leading_WIN (h : string) :
  normalize_hostname ("WIN-" ++ h) = normalize_hostname h.
Proof.
  unfold normalize_hostname.
  now rewrite (replace_leading_occurrence "W" "IN-" "" h).
Qed.

(** ** Values and timestamps *)

Example repr_user_page :
  Py.str (VList [VDict [("id", VInt 1); ("username", VStr "jdoe")]])
  = "[{'id': 1, 'username': 'jdoe'}]".
Proof. vm_compute. reflexivity. Qed.

Example repr_quotes :
  Py.repr (VStr "it's") = String Py.double_quote ("it's" ++ String Py.double_quote "")
  /\ Py.repr (VList [VNone; VBool true; VInt (-7)]) = "[None, True, -7]".
Proof. split; vm_compute; reflexivity. Qed.

Example strptime_seconds :
  Datetime.strptime "0001-01-01T00:00:01Z" "%Y-%m-%dT%H:%M:%SZ" = Some 1000000.
Proof. vm_compute. reflexivity. Qed.

Example strptime_fraction :
  Datetime.strptime "0001-01-02T00:00:00.5Z" "%Y-%m-%dT%H:%M:%S.%fZ"
  = Some (86400 * 1000000 + 500000).
Proof. vm_compute. reflexivity. Qed.

Example strptime_fraction_needs_digits :
  Datetime.strptime "2024-05-01T10:00:00Z" "%Y-%m-%dT%H:%M:%S.%fZ" = None.
Proof. vm_compute. reflexivity. Qed.

Example strptime_rejects :
  Datetime.strptime "2023-02-29T10:00:00Z" "%Y-%m-%dT%H:%M:%SZ" = None
  /\ Datetime.strptime "2024-05-01 10:00:00" "%Y-%m-%dT%H:%M:%SZ" = None
  /\ Datetime.strptime "2024-05-01T10:00:60Z" "%Y-%m-%dT%H:%M:%SZ" = None
  /\ Datetime.strptime "2024-05-01T10:00:00Zjunk" "%Y-%m-%dT%H:%M:%SZ" = None
  /\ Datetime.strptime "" "%Y-%m-%dT%H:%M:%SZ" = None.
Proof. vm_compute. repeat split. Qed.

Example strptime_lenient :
  Datetime.strptime "2024-5-1t9:05:07z" "%Y-%m-%dT%H:%M:%SZ"
  = Datetime.strptime "2024-05-01T09:05:07Z" "%Y-%m-%dT%H:%M:%SZ"
  /\ Datetime.strptime "2024-02-29T23:59:59Z" "%Y-%m-%dT%H:%M:%SZ"
     = Some (((738945 - 1) * 86400 + 86399) * 1000000).
Proof. vm_compute. repeat split. Qed.

(** ** The matcher *)

(** C1. For the users [[{id: 1, username: "jdoe"}]] and a system with
    host name "WIN-JDOE-LAPTOP": the orchestrator lowers the host name
    before it normalises it, so the prefix is not stripped and the
    normalised host name is "winjdoelaptop"; called on the host name as
    it is, [normalize_hostname] gives "jdoelaptop".  The user name
    normalises to "jdoe" and the matcher selects the user with id 1. *)
Theorem orchestrator_match_jdoe :
  let user := VDict [("id", VInt 1); ("username", VStr "jdoe")] in
  let system := VDict [("id", VStr "s1"); ("hostname", VStr "WIN-JDOE-LAPTOP")] in
  forall w,
    clean_name_of system w = (Ok "winjdoelaptop", w)
    /\ normalize_hostname "WIN-JDOE-LAPTOP" = "jdoelaptop"
    /\ uname_of user w = (Ok "jdoe", w)
    /\ find_match [user] "winjdoelaptop" w = (Ok user, w)
    /\ subscript user "id" w = (Ok (VInt 1), w).
Proof. intros user system w. repeat split. Qed.

Lemma find_match_passes_over (clean_name : string) (pre rest : list value) (w : world) :
  Forall (passed_over clean_name) pre ->
  find_match (pre ++ rest) clean_name w = find_match rest clean_name w.
Proof.
  induction 1 as [|u pre [uname [Hu Hc]] _ IH]; [reflexivity|].
  cbn [app find_match]. unfold bind. rewrite Hu, Hc. exact IH.
Qed.

(** C9. A user whose user name is empty or missing normalises to the
    empty string, which is a substring of every normalised host name;
    when all users before it in the collection are passed over, the
    matcher selects it. *)
Theorem empty_username_matches_every_hostname
    (clean_name : string) (d : list (string * value)) (pre post : list value) (w : world) :
  Py.lookup d "username" = None \/ Py.lookup d "username" = Some (VStr "") ->
  Forall (passed_over clean_name) pre ->
  uname_of (VDict d) w = (Ok "", w)
  /\ PyStr.contains clean_name "" = true
  /\ find_match (pre ++ VDict d :: post) clean_name w = (Ok (VDict d), w).
Proof.
  intros Hd Hpre.
  assert (Hu : forall w', uname_of (VDict d) w' = (Ok "", w')).
  { intros w'. unfold uname_of, bind, dict_get, ret.
    destruct Hd as [-> | ->]; reflexivity. }
  split; [apply Hu|]. split; [apply contains_empty|].
  rewrite find_match_passes_over by assumption.
  cbn [find_match]. unfold bind. now rewrite Hu, contains_empty.
Qed.

Lemma empty_username_matches_every_hostname_witness :
  let nameless := VDict [("id", VInt 7)] in
  find_match [VDict [("id", VInt 1); ("username", VStr "jdoe")];
              nameless;
              VDict [("id", VInt 2); ("username", VStr "asmith")]]
             "asmithpc" start
  = (Ok nameless, start).
Proof.
  refine (proj2 (proj2 (empty_username_matches_every_hostname
           "asmithpc" [("id", VInt 7)]
           [VDict [("id", VInt 1); ("username", VStr "jdoe")]]
           [VDict [("id", VInt 2); ("username", VStr "asmith")]]
           start _ _))).
  - left. reflexivity.
  - constructor; [|constructor].
    exists "jdoe". split; [intros w; reflexivity | reflexivity].
Defined.

(** ** Pagination *)

Local Open Scope list_scope.

Lemma page_requests_snoc endpoint use_v2 limit skip n :
  page_requests endpoint use_v2 limit skip (S n)
  = page_requests endpoint use_v2 limit skip n
    ++ [GET (page_url endpoint use_v2 limit (skip + limit * Z.of_nat n))].
Proof.
  revert skip. induction n as [|n IH]; intros skip.
  - cbn. now rewrite Z.mul_0_r, Z.add_0_r.
  - change (page_requests endpoint use_v2 limit skip (S (S n)))
      with (GET (page_url endpoint use_v2 limit skip)
            :: page_requests endpoint use_v2 limit (skip + limit) (S n)).
    rewrite IH. cbn [page_requests app].
    replace (skip + limit + limit * Z.of_nat n) with (skip + limit * Z.of_nat (S n)) by lia.
    reflexivity.
Qed.

Section Pagination.

Variable service : list request -> request -> reply.
Variables (endpoint : string) (use_v2 : bool) (limit : Z).

Let url (skip : Z) : string := page_url endpoint use_v2 limit skip.
Let step := get_all_step service endpoint use_v2 limit.

(** A failed request ends the loop through the handler. *)
Lemma step_fails results skip seen w :
  fails (service (log w) (GET (url skip))) = true ->
  step results skip seen w = (Ok Break, sent w (GET (url skip))).
Proof.
  intros H. unfold step, get_all_step, try_except, bind, session_get, send.
  fold (url skip). destruct (service (log w) (GET (url skip))) as [|st body]; [reflexivity|].
  cbn in H. unfold raise_for_status. cbn [fst].
  apply negb_true_iff in H. rewrite H. reflexivity.
Qed.

(** An empty page, or one whose fingerprint was seen, ends the loop. *)
Lemma step_stops results skip seen w items :
  page_items (service (log w) (GET (url skip))) = Some items ->
  Py.truthy items = false \/ Py.str items ∈ seen ->
  step results skip seen w = (Ok Break, sent w (GET (url skip))).
Proof.
  intros H Hstop. unfold step, get_all_step, try_except, bind, session_get, send.
  fold (url skip). destruct (service (log w) (GET (url skip))) as [|st body]; [discriminate|].
  destruct body as [| | | | |d]; try discriminate.
  cbn in H. unfold raise_for_status. cbn [fst snd].
  destruct (ok st); [|discriminate]. injection H as H.
  cbn [dict_get ret]. rewrite H.
  destruct Hstop as [-> | Hin]; [reflexivity|].
  rewrite (bool_decide_eq_true_2 _ Hin), orb_true_r. reflexivity.
Qed.

(** A non-empty list with a new fingerprint is accumulated. *)
Lemma step_continues results skip seen w (p : list value) :
  page_items (service (log w) (GET (url skip))) = Some (VList p) ->
  p <> [] ->
  fingerprint p ∉ seen ->
  step results skip seen w
  = (Ok (Continue (results ++ p) (skip + limit) (seen ∪ {[fingerprint p]})),
     sent w (GET (url skip))).
Proof.
  intros H Hne Hnew. unfold step, get_all_step, try_except, bind, session_get, send.
  fold (url skip). destruct (service (log w) (GET (url skip))) as [|st body]; [discriminate|].
  destruct body as [| | | | |d]; try discriminate.
  cbn in H. unfold raise_for_status. cbn [fst snd].
  destruct (ok st); [|discriminate]. injection H as H.
  cbn [dict_get ret]. rewrite H.
  fold (fingerprint p). rewrite (bool_decide_eq_false_2 _ Hnew).
  destruct p; [contradiction|]. reflexivity.
Qed.

(** The loop on a run of fresh, non-empty pages: when the reply that
    follows them ends the loop, the result is what was accumulated
    before, followed by the pages in order, and one request was sent
    per page and one more. *)
Lemma get_all_loop_pages (pages : list (list value)) :
  forall fuel results skip seen w,
    (length pages < fuel)%nat ->
    Forall (fun p => p <> []) pages ->
    NoDup (fingerprint <$> pages) ->
    (forall p, p ∈ pages -> fingerprint p ∉ seen) ->
    (forall k p, pages !! k = Some p ->
       page_items (service (log w ++ page_requests endpoint use_v2 limit skip k)
                           (GET (url (skip + limit * Z.of_nat k))))
       = Some (VList p)) ->
    (forall results' seen' w',
       (forall p, p ∈ pages -> fingerprint p ∈ seen') ->
       (forall x, x ∈ seen -> x ∈ seen') ->
       log w' = log w ++ page_requests endpoint use_v2 limit skip (length pages) ->
       step results' (skip + limit * Z.of_nat (length pages)) seen' w'
       = (Ok Break, sent w' (GET (url (skip + limit * Z.of_nat (length pages)))))) ->
    get_all_loop service fuel endpoint use_v2 limit results skip seen w
    = (Ok (results ++ concat pages),
       World (log w ++ page_requests endpoint use_v2 limit skip (S (length pages)))
             (clock_reads w)).
Proof.
  induction pages as [|p ps IH]; intros fuel results skip seen w Hfuel Hne Hdup Hnew Hpages Hlast.
  - destruct fuel as [|fuel]; [cbn in Hfuel; lia|].
    cbn [get_all_loop]. unfold bind. fold step.
    specialize (Hlast results seen w).
    cbn [length Z.of_nat page_requests] in Hlast.
    rewrite Z.mul_0_r, Z.add_0_r, app_nil_r in Hlast.
    rewrite Hlast; [| intros q Hq; inversion Hq | auto | reflexivity].
    cbn [concat page_requests ret sent].
    now rewrite app_nil_r.
  - destruct fuel as [|fuel]; [cbn in Hfuel; lia|].
    cbn [get_all_loop]. unfold bind. fold step.
    inversion Hne as [|? ? Hp Hps]; subst.
    rewrite fmap_cons in Hdup. apply NoDup_cons in Hdup as [Hfresh Hdup].
    assert (H0 := Hpages O p eq_refl).
    cbn [page_requests Z.of_nat] in H0. rewrite Z.mul_0_r, Z.add_0_r, app_nil_r in H0.
    rewrite (step_continues results skip seen w p H0 Hp) by (apply Hnew; left).
    rewrite (IH fuel (results ++ p) (skip + limit) (seen ∪ {[fingerprint p]})
                (sent w (GET (url skip)))).
    + cbn [concat sent log clock_reads page_requests length].
      rewrite <- !app_assoc. reflexivity.
    + cbn in Hfuel. lia.
    + assumption.
    + assumption.
    + intros q Hq. apply not_elem_of_union. split; [apply Hnew; now right|].
      rewrite elem_of_singleton. intros Heq. apply Hfresh.
      rewrite <- Heq. apply list_elem_of_fmap. exists q. split; [reflexivity | assumption].
    + intros k q Hq. specialize (Hpages (S k) q Hq).
      cbn [sent log]. cbn [page_requests] in Hpages.
      rewrite <- app_assoc. cbn [app].
      replace (skip + limit + limit * Z.of_nat k) with (skip + limit * Z.of_nat (S k)) by lia.
      exact Hpages.
    + intros results' seen' w' Hseen Hsub Hlog.
      replace (skip + limit + limit * Z.of_nat (length ps))
        with (skip + limit * Z.of_nat (length (p :: ps))) by (cbn [length]; lia).
      apply Hlast.
      * intros q Hq. apply elem_of_cons in Hq as [-> | Hq]; [|now apply Hseen].
        apply Hsub. apply elem_of_union. right. now apply elem_of_singleton.
      * intros x Hx. apply Hsub. apply elem_of_union. now left.
      * rewrite Hlog. cbn [sent log page_requests length].
        rewrite <- app_assoc. reflexivity.
Qed.

End Pagination.

(** C3. When every request to the endpoint yields the same non-empty
    item list, the fetcher stops after exactly two page requests: the
    first page is accumulated, the second is recognised by its
    fingerprint.  Two turns of the loop are enough. *)
Theorem get_all_stops_on_repeated_page
    (service : list request -> request -> reply) (endpoint : string) (use_v2 : bool)
    (items : list value) (fuel : nat) (w : world) :
  items <> [] ->
  (forall h skip,
     page_items (service h (GET (page_url endpoint use_v2 100 skip))) = Some (VList items)) ->
  (2 <= fuel)%nat ->
  get_all service fuel endpoint use_v2 w
  = (Ok items,
     World (log w ++ [GET (page_url endpoint use_v2 100 0);
                      GET (page_url endpoint use_v2 100 100)])
           (clock_reads w)).
Proof.
  intros Hne Hsame Hfuel. unfold get_all.
  rewrite (get_all_loop_pages service endpoint use_v2 100 [items]).
  - cbn [concat app]. now rewrite app_nil_r.
  - cbn [length]. lia.
  - repeat constructor. exact Hne.
  - cbn. apply NoDup_singleton.
  - intros p _. apply not_elem_of_empty.
  - intros k p Hk. destruct k as [|[|k]]; [|discriminate..].
    injection Hk as <-. apply Hsame.
  - intros results' seen' w' Hseen _ _.
    apply step_stops with (items := VList items); [apply Hsame|].
    right. apply Hseen. now left.
Qed.

Lemma get_all_stops_on_repeated_page_witness :
  let a := VDict [("id", VInt 1); ("username", VStr "jdoe")] in
  get_all (fun _ _ => page [a]) 2 "systemusers" false start
  = (Ok [a],
     World [GET "https://console.jumpcloud.com/api/systemusers?limit=100&skip=0";
            GET "https://console.jumpcloud.com/api/systemusers?limit=100&skip=100"] 0).
Proof.
  intros a.
  apply (get_all_stops_on_repeated_page (fun _ _ => page [a]) "systemusers" false [a] 2 start).
  - discriminate.
  - intros h skip. reflexivity.
  - lia.
Defined.

(** C4, as the code has it. For N responses that each carry a non-empty
    item list, with pairwise distinct fingerprints, followed by a
    response with an empty item list, the fetcher returns the
    concatenation of the N lists in fetch order, after N + 1 requests. *)
Theorem get_all_concatenates_distinct_pages
    (service : list request -> request -> reply) (endpoint : string) (use_v2 : bool)
    (pages : list (list value)) (fuel : nat) (w : world) :
  Forall (fun p => p <> []) pages ->
  NoDup (fingerprint <$> pages) ->
  (forall k p, pages !! k = Some p ->
     page_items (service (log w ++ page_requests endpoint use_v2 100 0 k)
                         (GET (page_url endpoint use_v2 100 (100 * Z.of_nat k))))
     = Some (VList p)) ->
  page_items (service (log w ++ page_requests endpoint use_v2 100 0 (length pages))
                      (GET (page_url endpoint use_v2 100 (100 * Z.of_nat (length pages)))))
  = Some (VList []) ->
  (length pages < fuel)%nat ->
  get_all service fuel endpoint use_v2 w
  = (Ok (concat pages),
     World (log w ++ page_requests endpoint use_v2 100 0 (S (length pages)))
           (clock_reads w)).
Proof.
  intros Hne Hdup Hpages Hlast Hfuel. unfold get_all.
  rewrite (get_all_loop_pages service endpoint use_v2 100 pages); try assumption.
  - reflexivity.
  - intros p _. apply not_elem_of_empty.
  - intros results' seen' w' _ _ Hlog. rewrite Z.add_0_l.
    apply step_stops with (items := VList []); [|now left].
    rewrite Hlog. exact Hlast.
Qed.

Lemma get_all_concatenates_distinct_pages_witness :
  let a := VDict [("id", VInt 1)] in
  let b := VDict [("id", VInt 2)] in
  let c := VDict [("id", VInt 3)] in
  get_all (scripted [page [a; b]; page [c]; page []]) 3 "systems" false start
  = (Ok [a; b; c],
     World [GET "https://console.jumpcloud.com/api/systems?limit=100&skip=0";
            GET "https://console.jumpcloud.com/api/systems?limit=100&skip=100";
            GET "https://console.jumpcloud.com/api/systems?limit=100&skip=200"] 0).
Proof.
  intros a b c.
  apply (get_all_concatenates_distinct_pages
           (scripted [page [a; b]; page [c]; page []]) "systems" false
           [[a; b]; [c]] 3 start).
  - repeat constructor; discriminate.
  - vm_compute. repeat constructor; rewrite ?elem_of_cons, ?elem_of_nil; intuition discriminate.
  - intros k p Hk. destruct k as [|[|k]]; [| |discriminate]; injection Hk as <-; reflexivity.
  - reflexivity.
  - cbn. lia.
Defined.

(** C4 as stated fails: two successful responses that carry the same
    non-empty item list, followed by an empty one.  The second page is
    taken for a repetition of the first, the fetch ends there, and the
    result is one page, not the concatenation of the two. *)
Lemma get_all_drops_identical_page :
  let a := VDict [("id", VInt 1)] in
  let service := scripted [page [a]; page [a]; page []] in
  let pages := [[a]; [a]] in
  Forall (fun p => p <> []) pages
  /\ (forall k p, pages !! k = Some p ->
        page_items (service (page_requests "systems" false 100 0 k)
                            (GET (page_url "systems" false 100 (100 * Z.of_nat k))))
        = Some (VList p))
  /\ page_items (service (page_requests "systems" false 100 0 (length pages))
                         (GET (page_url "systems" false 100 (100 * Z.of_nat (length pages)))))
     = Some (VList [])
  /\ get_all service 3 "systems" false start
     = (Ok [a], World (page_requests "systems" false 100 0 2) 0)
  /\ fst (get_all service 3 "systems" false start) <> Ok (concat pages).
Proof.
  intros a service pages. split; [|split; [|split; [|split]]].
  - repeat constructor; discriminate.
  - intros k p Hk. destruct k as [|[|k]]; [| |discriminate]; injection Hk as <-; reflexivity.
  - reflexivity.
  - vm_compute. reflexivity.
  - vm_compute. discriminate.
Qed.

(** C5. A transport-level failure at any turn of the loop ends the
    fetch with what was accumulated so far, without raising and without
    a further request; so when the failure follows N fresh non-empty
    pages, the result is exactly the items of those N pages. *)
Theorem get_all_returns_partial_results_on_failure
    (service : list request -> request -> reply) (endpoint : string) (use_v2 : bool) :
  (forall fuel results skip seen w,
     fails (service (log w) (GET (page_url endpoint use_v2 100 skip))) = true ->
     get_all_loop service (S fuel) endpoint use_v2 100 results skip seen w
     = (Ok results, sent w (GET (page_url endpoint use_v2 100 skip))))
  /\ (forall (pages : list (list value)) fuel w,
        Forall (fun p => p <> []) pages ->
        NoDup (fingerprint <$> pages) ->
        (forall k p, pages !! k = Some p ->
           page_items (service (log w ++ page_requests endpoint use_v2 100 0 k)
                               (GET (page_url endpoint use_v2 100 (100 * Z.of_nat k))))
           = Some (VList p)) ->
        fails (service (log w ++ page_requests endpoint use_v2 100 0 (length pages))
                       (GET (page_url endpoint use_v2 100 (100 * Z.of_nat (length pages)))))
        = true ->
        (length pages < fuel)%nat ->
        get_all service fuel endpoint use_v2 w
        = (Ok (concat pages),
           World (log w ++ page_requests endpoint use_v2 100 0 (S (length pages)))
                 (clock_reads w))).
Proof.
  split.
  - intros fuel results skip seen w Hfail.
    cbn [get_all_loop]. unfold bind.
    now rewrite (step_fails service endpoint use_v2 100 results skip seen w Hfail).
  - intros pages fuel w Hne Hdup Hpages Hfail Hfuel. unfold get_all.
    rewrite (get_all_loop_pages service endpoint use_v2 100 pages); try assumption.
    + reflexivity.
    + intros p _. apply not_elem_of_empty.
    + intros results' seen' w' _ _ Hlog. rewrite Z.add_0_l.
      apply step_fails. rewrite Hlog. exact Hfail.
Qed.

Lemma get_all_returns_partial_results_on_failure_witness :
  let a := VDict [("id", VInt 1)] in
  let b := VDict [("id", VInt 2)] in
  get_all (scripted [page [a]; page [b]; Response 503 VNone; page [a; b]]) 3
          "systems" false start
  = (Ok [a; b], World (page_requests "systems" false 100 0 3) 0)
  /\ get_all (scripted [page [a]; ConnectionError; page [b]]) 2 "systems" false start
     = (Ok [a], World (page_requests "systems" false 100 0 2) 0).
Proof.
  intros a b. split.
  - apply (proj2 (get_all_returns_partial_results_on_failure
                    (scripted [page [a]; page [b]; Response 503 VNone; page [a; b]])
                    "systems" false) [[a]; [b]] 3%nat start).
    + repeat constructor; discriminate.
    + vm_compute. repeat constructor; rewrite ?elem_of_cons, ?elem_of_nil; intuition discriminate.
    + intros k p Hk. destruct k as [|[|k]]; [| |discriminate]; injection Hk as <-; reflexivity.
    + reflexivity.
    + cbn. lia.
  - apply (proj2 (get_all_returns_partial_results_on_failure
                    (scripted [page [a]; ConnectionError; page [b]])
                    "systems" false) [[a]] 2%nat start).
    + repeat constructor; discriminate.
    + apply NoDup_singleton.
    + intros k p Hk. destruct k as [|k]; [|discriminate]; injection Hk as <-; reflexivity.
    + reflexivity.
    + cbn. lia.
Defined.

(** ** The conflict path of [bind_user] *)

(** C2, as the code has it. When the first bind request is answered
    with status 409, and the unbind request and the retry are each
    answered by the service, [bind_user] sends one unbind request for
    the same pair and then one more bind request, three requests in
    all, and returns [True] exactly when the status of that last bind
    request lies outside 400..599; the status of the retry, 409
    included, leads to no further request. *)
Theorem bind_user_conflict_rebinds_once
    (service : list request -> request -> reply) (system_id user_id : value) (w : world)
    (body0 body1 body2 : value) (status1 status2 : Z) :
  let add := POST (associations_url system_id) (association_payload "add" user_id) in
  let remove := POST (associations_url system_id) (association_payload "remove" user_id) in
  service (log w) add = Response 409 body0 ->
  service (log w ++ [add]) remove = Response status1 body1 ->
  service (log w ++ [add; remove]) add = Response status2 body2 ->
  bind_user service system_id user_id w
  = (Ok (negb ((400 <=? status2) && (status2 <? 600))),
     World (log w ++ [add; remove; add]) (clock_reads w)).
Proof.
  intros add remove H0 H1 H2.
  unfold bind_user, unbind_user, bind, session_post, send.
  fold add remove. rewrite H0. cbn [fst log clock_reads Z.eqb Pos.eqb].
  rewrite H1. cbn [ret log clock_reads].
  rewrite <- app_assoc. cbn [app]. rewrite H2.
  cbn [fst ret log clock_reads]. rewrite <- app_assoc. reflexivity.
Qed.

Lemma bind_user_conflict_rebinds_once_witness :
  let url := "https://console.jumpcloud.com/api/v2/systems/s1/associations" in
  let payload op := VDict [("op", VStr op); ("type", VStr "user"); ("id", VStr "u1")] in
  let requests :=
    [POST url (payload "add"); POST url (payload "remove"); POST url (payload "add")] in
  bind_user conflict_once (VStr "s1") (VStr "u1") start = (Ok true, World requests 0)
  /\ bind_user (scripted [Response 409 VNone; Response 200 VNone; Response 409 VNone])
               (VStr "s1") (VStr "u1") start
     = (Ok false, World requests 0)
  /\ bind_user (scripted [Response 409 VNone; Response 500 VNone; Response 204 VNone])
               (VStr "s1") (VStr "u1") start
     = (Ok true, World requests 0).
Proof.
  intros url payload requests. split; [|split].
  - apply (bind_user_conflict_rebinds_once conflict_once (VStr "s1") (VStr "u1") start
             VNone VNone VNone 200 200); reflexivity.
  - apply (bind_user_conflict_rebinds_once
             (scripted [Response 409 VNone; Response 200 VNone; Response 409 VNone])
             (VStr "s1") (VStr "u1") start VNone VNone VNone 200 409); reflexivity.
  - apply (bind_user_conflict_rebinds_once
             (scripted [Response 409 VNone; Response 500 VNone; Response 204 VNone])
             (VStr "s1") (VStr "u1") start VNone VNone VNone 500 204); reflexivity.
Defined.

(** C2 as stated fails: the first bind request is answered with 409 and
    the unbind request then raises a transport error.  [bind_user] has
    no handler, so the error leaves it: one bind request was sent, not
    two, and no boolean is returned.  Likewise, when the unbind is
    answered and the retry raises, three requests were sent and no
    boolean is returned. *)
Lemma bind_user_conflict_then_transport_error :
  let url := "https://console.jumpcloud.com/api/v2/systems/s1/associations" in
  let payload op := VDict [("op", VStr op); ("type", VStr "user"); ("id", VStr "u1")] in
  let dropped := scripted [Response 409 VNone] in
  let dropped_late := scripted [Response 409 VNone; Response 200 VNone] in
  dropped [] (POST url (payload "add")) = Response 409 VNone
  /\ bind_user dropped (VStr "s1") (VStr "u1") start
     = (Raise RequestException, World [POST url (payload "add"); POST url (payload "remove")] 0)
  /\ (forall b w, bind_user dropped (VStr "s1") (VStr "u1") start <> (Ok b, w))
  /\ dropped_late [] (POST url (payload "add")) = Response 409 VNone
  /\ bind_user dropped_late (VStr "s1") (VStr "u1") start
     = (Raise RequestException,
        World [POST url (payload "add"); POST url (payload "remove");
               POST url (payload "add")] 0).
Proof.
  intros url payload dropped dropped_late.
  split; [reflexivity|]. split; [vm_compute; reflexivity|].
  split; [intros b w; vm_compute; discriminate|].
  split; [reflexivity | vm_compute; reflexivity].
Qed.

(** A second conflict is not handled: the retry's 409 is the result. *)
Example bind_user_second_conflict :
  let url := "https://console.jumpcloud.com/api/v2/systems/s1/associations" in
  let payload op := VDict [("op", VStr op); ("type", VStr "user"); ("id", VStr "u1")] in
  bind_user (fun _ r => match r with
                        | POST _ (VDict (("op", VStr "add") :: _)) => Response 409 VNone
                        | _ => Response 200 VNone
                        end)
            (VStr "s1") (VStr "u1") start
  = (Ok false,
     World [POST url (payload "add"); POST url (payload "remove"); POST url (payload "add")] 0).
Proof. vm_compute. reflexivity. Qed.

(** X14. When the first bind request is answered with a status other
    than 409, [bind_user] sends that one request only and returns
    whether the status lies outside 400..599. *)
Lemma bind_user_no_conflict
    (service : list request -> request -> reply) (system_id user_id : value) (w : world)
    (status : Z) (body : value) :
  let add := POST (associations_url system_id) (association_payload "add" user_id) in
  service (log w) add = Response status body ->
  status <> 409 ->
  bind_user service system_id user_id w = (Ok (ok status), sent w add).
Proof.
  intros add H Hs. unfold bind_user, bind, session_post, send. fold add. rewrite H.
  cbn [fst]. apply Z.eqb_neq in Hs. rewrite Hs. reflexivity.
Qed.

(** X15. In the conflict path a transport error of the unbind request
    is not caught: [bind_user] raises it and the retry is never sent. *)
Lemma bind_user_unbind_raises
    (service : list request -> request -> reply) (system_id user_id : value) (w : world)
    (body0 : value) :
  let add := POST (associations_url system_id) (association_payload "add" user_id) in
  let remove := POST (associations_url system_id) (association_payload "remove" user_id) in
  service (log w) add = Response 409 body0 ->
  service (log w ++ [add]) remove = ConnectionError ->
  bind_user service system_id user_id w
  = (Raise RequestException, World (log w ++ [add; remove]) (clock_reads w)).
Proof.
  intros add remove H0 H1.
  unfold bind_user, unbind_user, bind, session_post, send.
  fold add remove. rewrite H0. cbn [fst log clock_reads Z.eqb Pos.eqb].
  rewrite H1. cbn [log clock_reads]. rewrite <- app_assoc. reflexivity.
Qed.

(** ** The recency check *)

Lemma created_time_empty : created_time "" = None.
Proof. vm_compute. reflexivity. Qed.

Section Recency.

Variable clock : nat -> Z.

(** A timestamp that parses is compared with the clock. *)
Lemma was_created_parsed (timestamp : string) (t : Z) (w : world) :
  created_time timestamp = Some t ->
  was_created_within_last_24_hours clock (VStr timestamp) w
  = (Ok (clock (clock_reads w) - t <=? Datetime.timedelta_hours 24), tick w).
Proof.
  intros H. destruct timestamp as [|c s]; [rewrite created_time_empty in H; discriminate|].
  unfold was_created_within_last_24_hours. cbn [Py.truthy String.eqb negb].
  unfold created_time in H. unfold try_except, bind, strptime, utcnow.
  destruct (Datetime.strptime (String c s) "%Y-%m-%dT%H:%M:%S.%fZ") as [t1|].
  - injection H as ->. reflexivity.
  - cbn [raise exn_eqb]. rewrite H. reflexivity.
Qed.

(** One that does not parse with either format raises [ValueError]. *)
Lemma was_created_unparsed (timestamp : string) (w : world) :
  timestamp <> "" ->
  created_time timestamp = None ->
  was_created_within_last_24_hours clock (VStr timestamp) w = (Raise ValueError, w).
Proof.
  intros Hne H. destruct timestamp as [|c s]; [contradiction|].
  unfold was_created_within_last_24_hours. cbn [Py.truthy String.eqb negb].
  unfold created_time in H. unfold try_except, bind, strptime.
  destruct (Datetime.strptime (String c s) "%Y-%m-%dT%H:%M:%S.%fZ") as [t1|]; [discriminate|].
  cbn [raise exn_eqb]. rewrite H. reflexivity.
Qed.

(** The comprehension on a first system that is kept, or left out,
    after one reading of the clock. *)
Lemma recent_systems_head (d : list (string * value)) (timestamp : string) (t : Z)
    (rest : list value) (w : world) :
  Py.lookup d "created" = Some (VStr timestamp) ->
  created_time timestamp = Some t ->
  recent_systems clock (VDict d :: rest) w
  = (r <- recent_systems clock rest ;;
     ret (if clock (clock_reads w) - t <=? Datetime.timedelta_hours 24
          then VDict d :: r else r)) (tick w).
Proof.
  intros Hd Ht. cbn [recent_systems]. unfold bind at 1 2. cbn [dict_get ret].
  rewrite Hd, (was_created_parsed timestamp t w Ht). reflexivity.
Qed.

Lemma bind_ret {A} (m : M A) (w : world) : (r <- m ;; ret r) w = m w.
Proof. unfold bind, ret. destruct (m w) as [[a|e|] w']; reflexivity. Qed.

End Recency.

(** C6. The recency filter keeps a system whose [created] timestamp
    parses to 23 hours before the clock reading of its check, leaves out
    one whose timestamp parses to 25 hours before it, and leaves out one
    whose [created] field is absent or [None]. *)
Theorem recency_filter_23h_25h_absent
    (clock : nat -> Z) (d : list (string * value)) (rest : list value) (w : world) :
  (forall timestamp t,
     Py.lookup d "created" = Some (VStr timestamp) ->
     created_time timestamp = Some t ->
     (clock (clock_reads w) - t = Datetime.timedelta_hours 23 ->
      recent_systems clock (VDict d :: rest) w
      = (r <- recent_systems clock rest ;; ret (VDict d :: r)) (tick w))
     /\ (clock (clock_reads w) - t = Datetime.timedelta_hours 25 ->
         recent_systems clock (VDict d :: rest) w = recent_systems clock rest (tick w)))
  /\ (Py.lookup d "created" = None \/ Py.lookup d "created" = Some VNone ->
      recent_systems clock (VDict d :: rest) w = recent_systems clock rest w).
Proof.
  split.
  - intros timestamp t Hd Ht. split; intros Hage.
    + rewrite (recent_systems_head clock d timestamp t rest w Hd Ht), Hage. reflexivity.
    + rewrite (recent_systems_head clock d timestamp t rest w Hd Ht), Hage.
      change (Datetime.timedelta_hours 25 <=? Datetime.timedelta_hours 24) with false.
      apply bind_ret.
  - intros Hd. cbn [recent_systems]. unfold bind at 1 2. cbn [dict_get ret].
    destruct Hd as [-> | ->]; cbn [was_created_within_last_24_hours Py.truthy negb ret];
      apply bind_ret.
Qed.

Lemma recency_filter_23h_25h_absent_witness :
  let clock := fun _ : nat => 63850154400000000 + Datetime.timedelta_hours 23 in
  let fresh := [("id", VStr "s1"); ("created", VStr "2024-05-01T10:00:00Z")] in
  let stale := [("id", VStr "s2"); ("created", VStr "2024-05-01T08:00:00.000Z")] in
  let undated := [("id", VStr "s3"); ("created", VNone)] in
  let unlabelled := [("id", VStr "s4")] in
  recent_systems clock [VDict fresh] start = (Ok [VDict fresh], World [] 1)
  /\ recent_systems clock [VDict stale] start = (Ok [], World [] 1)
  /\ recent_systems clock [VDict undated] start = (Ok [], start)
  /\ recent_systems clock [VDict unlabelled] start = (Ok [], start).
Proof.
  intros clock fresh stale undated unlabelled.
  split; [|split; [|split]].
  - rewrite (proj1 (proj1 (recency_filter_23h_25h_absent clock fresh [] start)
                          "2024-05-01T10:00:00Z" 63850154400000000 eq_refl
                          ltac:(vm_compute; reflexivity))
                   ltac:(vm_compute; reflexivity)).
    reflexivity.
  - rewrite (proj2 (proj1 (recency_filter_23h_25h_absent clock stale [] start)
                          "2024-05-01T08:00:00.000Z" 63850147200000000 eq_refl
                          ltac:(vm_compute; reflexivity))
                   ltac:(vm_compute; reflexivity)).
    reflexivity.
  - rewrite (proj2 (recency_filter_23h_25h_absent clock undated [] start)
                   ltac:(right; reflexivity)).
    reflexivity.
  - rewrite (proj2 (recency_filter_23h_25h_absent clock unlabelled [] start)
                   ltac:(left; reflexivity)).
    reflexivity.
Defined.

(** C10. A timestamp that parses to a time later than the clock reading
    gives a negative age, which is at most 24 hours: the check returns
    [True] and the filter keeps the system. *)
Theorem future_timestamp_is_recent
    (clock : nat -> Z) (timestamp : string) (t : Z) (w : world) :
  created_time timestamp = Some t ->
  clock (clock_reads w) < t ->
  was_created_within_last_24_hours clock (VStr timestamp) w = (Ok true, tick w)
  /\ forall d rest,
       Py.lookup d "created" = Some (VStr timestamp) ->
       recent_systems clock (VDict d :: rest) w
       = (r <- recent_systems clock rest ;; ret (VDict d :: r)) (tick w).
Proof.
  intros Ht Hlater.
  assert (Hle : (clock (clock_reads w) - t <=? Datetime.timedelta_hours 24) = true).
  { apply Z.leb_le. unfold Datetime.timedelta_hours. lia. }
  split.
  - now rewrite (was_created_parsed clock timestamp t w Ht), Hle.
  - intros d rest Hd.
    now rewrite (recent_systems_head clock d timestamp t rest w Hd Ht), Hle.
Qed.

Lemma future_timestamp_is_recent_witness :
  let next_year := VDict [("id", VStr "s1"); ("created", VStr "2025-05-01T10:00:00.250Z")] in
  was_created_within_last_24_hours (fun _ => 63850154400000000)
    (VStr "2025-05-01T10:00:00.250Z") start
  = (Ok true, World [] 1)
  /\ recent_systems (fun _ => 63850154400000000) [next_year] start
     = (Ok [next_year], World [] 1).
Proof.
  intros next_year.
  destruct (future_timestamp_is_recent (fun _ => 63850154400000000)
              "2025-05-01T10:00:00.250Z" 63881690400250000 start
              ltac:(vm_compute; reflexivity) ltac:(vm_compute; reflexivity))
    as [Hcheck Hfilter].
  split; [exact Hcheck|]. unfold next_year.
  rewrite (Hfilter [("id", VStr "s1"); ("created", VStr "2025-05-01T10:00:00.250Z")] []
                   eq_refl).
  reflexivity.
Defined.

(** ** A timestamp in neither format *)

Section Abort.

Variable service : list request -> request -> reply.
Variable clock : nat -> Z.

Lemma dict_get_world (v : value) (key : string) (default : value) (w : world) :
  snd (dict_get v key default w) = w.
Proof. destruct v; reflexivity. Qed.

(** The check sends no request and is not a loop. *)
Lemma was_created_sends_nothing (timestamp : value) (w : world) :
  exists o w',
    was_created_within_last_24_hours clock timestamp w = (o, w')
    /\ log w' = log w /\ o <> OutOfFuel.
Proof.
  unfold was_created_within_last_24_hours.
  destruct (negb (Py.truthy timestamp)).
  { exists (Ok false), w. repeat split; discriminate. }
  unfold try_except, bind, strptime, utcnow.
  destruct timestamp as [| | |s| |];
    try (exists (Raise TypeError), w; repeat split; discriminate).
  destruct (Datetime.strptime s "%Y-%m-%dT%H:%M:%S.%fZ") as [t|].
  { eexists _, _. repeat split; discriminate. }
  cbn [raise exn_eqb].
  destruct (Datetime.strptime s "%Y-%m-%dT%H:%M:%SZ") as [t|];
    eexists _, _; repeat split; discriminate.
Qed.

(** A system with such a timestamp anywhere in the list makes the
    comprehension raise; no request is sent. *)
Lemma recent_systems_aborts (d : list (string * value)) (timestamp : string)
    (systems : list value) :
  Py.lookup d "created" = Some (VStr timestamp) ->
  timestamp <> "" ->
  created_time timestamp = None ->
  VDict d ∈ systems ->
  forall w, exists e w',
    recent_systems clock systems w = (Raise e, w') /\ log w' = log w.
Proof.
  intros Hd Hne Hnone. induction systems as [|sys systems IH]; intros Hin w.
  - inversion Hin.
  - cbn [recent_systems]. unfold bind at 1 2.
    destruct (dict_get sys "created" VNone w) as [[created|e|] w0] eqn:Hget.
    + assert (w0 = w) as ->.
      { now rewrite <- (dict_get_world sys "created" VNone w), Hget. }
      destruct (was_created_sends_nothing created w) as (o & w1 & Hcheck & Hlog & Hfuel).
      rewrite Hcheck. destruct o as [keep|e|]; [| eauto | contradiction].
      apply elem_of_cons in Hin as [<- | Hin].
      * cbn in Hget. rewrite Hd in Hget. injection Hget as <-.
        rewrite (was_created_unparsed clock timestamp w Hne Hnone) in Hcheck.
        discriminate.
      * destruct (IH Hin w1) as (e & w' & Hrest & Hlog').
        unfold bind. rewrite Hrest. exists e, w'. split; [reflexivity | congruence].
    + assert (w0 = w) as ->.
      { now rewrite <- (dict_get_world sys "created" VNone w), Hget. }
      eauto.
    + destruct sys; discriminate.
Qed.

(** The comprehension over a list in two parts, when the first part
    raises nothing. *)
Lemma recent_systems_app (pre rest : list value) :
  forall w kept w',
    recent_systems clock pre w = (Ok kept, w') ->
    recent_systems clock (pre ++ rest) w
    = (r <- recent_systems clock rest ;; ret (kept ++ r)) w'.
Proof.
  induction pre as [|p pre IH]; intros w kept w' H.
  - cbn in H. injection H as <- <-. symmetry. apply bind_ret.
  - cbn [recent_systems app] in *. unfold bind in H |- *.
    destruct (dict_get p "created" VNone w) as [[c|e|] w0]; try discriminate.
    destruct (was_created_within_last_24_hours clock c w0) as [[k|e|] w1]; try discriminate.
    destruct (recent_systems clock pre w1) as [[r0|e|] w2] eqn:E; try discriminate.
    cbn [ret] in H. injection H as <- <-.
    rewrite (IH w1 r0 w2 E). unfold bind.
    destruct (recent_systems clock rest w2) as [[r|e|] w3]; try reflexivity.
    destruct k; reflexivity.
Qed.

(** C7. A non-empty timestamp that parses with neither format makes the
    recency check raise [ValueError]; the error leaves the filtering
    step as soon as the check of that system is reached, without the
    systems after it being looked at; and a run whose fetched systems
    include such a timestamp ends with an exception after the two
    fetches, with no request sent for any system; the exception is that
    [ValueError] when the systems before it pass the filter. *)
Theorem unparseable_timestamp_aborts_run (timestamp : string) :
  timestamp <> "" ->
  created_time timestamp = None ->
  (forall w,
     was_created_within_last_24_hours clock (VStr timestamp) w = (Raise ValueError, w))
  /\ (forall pre d post w kept w',
        Py.lookup d "created" = Some (VStr timestamp) ->
        recent_systems clock pre w = (Ok kept, w') ->
        recent_systems clock (pre ++ VDict d :: post) w = (Raise ValueError, w'))
  /\ (forall fuel w users w1 systems w2 d,
        get_all service fuel "systemusers" false w = (Ok users, w1) ->
        get_all service fuel "systems" false w1 = (Ok systems, w2) ->
        VDict d ∈ systems ->
        Py.lookup d "created" = Some (VStr timestamp) ->
        exists e w',
          main service clock fuel w = (Raise e, w') /\ log w' = log w2)
  /\ (forall fuel w users w1 pre d post w2 kept w3,
        get_all service fuel "systemusers" false w = (Ok users, w1) ->
        get_all service fuel "systems" false w1 = (Ok (pre ++ VDict d :: post), w2) ->
        Py.lookup d "created" = Some (VStr timestamp) ->
        recent_systems clock pre w2 = (Ok kept, w3) ->
        main service clock fuel w = (Raise ValueError, w3) /\ log w3 = log w2).
Proof.
  intros Hne Hnone.
  assert (Hpart : forall pre d post w kept w',
             Py.lookup d "created" = Some (VStr timestamp) ->
             recent_systems clock pre w = (Ok kept, w') ->
             recent_systems clock (pre ++ VDict d :: post) w = (Raise ValueError, w')).
  { intros pre d post w kept w' Hd Hpre.
    rewrite (recent_systems_app pre (VDict d :: post) w kept w' Hpre).
    unfold bind at 1. cbn [recent_systems]. unfold bind at 1 2. cbn [dict_get ret].
    now rewrite Hd, (was_created_unparsed clock timestamp w' Hne Hnone). }
  split; [|split; [exact Hpart|split]]; cycle 2.
  - intros fuel w users w1 pre d post w2 kept w3 Husers Hsystems Hd Hpre.
    assert (Hin : VDict d ∈ pre ++ VDict d :: post).
    { apply elem_of_app. right. now left. }
    destruct (recent_systems_aborts d timestamp _ Hd Hne Hnone Hin w2)
      as (e & w' & Hraise & Hlog).
    rewrite (Hpart pre d post w2 kept w3 Hd Hpre) in Hraise. injection Hraise as <- <-.
    split; [|exact Hlog].
    unfold main, bind. now rewrite Husers, Hsystems, (Hpart pre d post w2 kept w3 Hd Hpre).
  - intros w. now apply was_created_unparsed.
  - intros fuel w users w1 systems w2 d Husers Hsystems Hin Hd.
    destruct (recent_systems_aborts d timestamp systems Hd Hne Hnone Hin w2)
      as (e & w' & Hraise & Hlog).
    exists e, w'. split; [|exact Hlog].
    unfold main, bind. now rewrite Husers, Hsystems, Hraise.
Qed.

End Abort.

Lemma unparseable_timestamp_aborts_run_witness :
  let service :=
    scripted [page [VDict [("id", VInt 1); ("username", VStr "jdoe")]]; page [];
              page [VDict [("id", VStr "s1"); ("hostname", VStr "WIN-JDOE-LAPTOP");
                           ("created", VStr "2024-05-01T10:00:00Z")];
                    VDict [("id", VStr "s2"); ("hostname", VStr "WIN-JDOE-PC");
                           ("created", VStr "2024-05-01 10:00:00")];
                    VDict [("id", VStr "s3"); ("hostname", VStr "JDOE-MAC");
                           ("created", VStr "2024-05-01T10:00:00Z")]];
              page []] in
  main service (fun _ => 63850154400000000) 2 start
  = (Raise ValueError,
     World (page_requests "systemusers" false 100 0 2
            ++ page_requests "systems" false 100 0 2) 1).
Proof.
  intros service.
  assert (Hdate : created_time "2024-05-01 10:00:00" = None) by (vm_compute; reflexivity).
  refine (proj1 (proj2 (proj2 (proj2 (unparseable_timestamp_aborts_run
                                       service (fun _ => 63850154400000000)
                                       "2024-05-01 10:00:00" ltac:(discriminate) Hdate)))
                  2%nat start
                  [VDict [("id", VInt 1); ("username", VStr "jdoe")]]
                  (World (page_requests "systemusers" false 100 0 2) 0)
                  [VDict [("id", VStr "s1"); ("hostname", VStr "WIN-JDOE-LAPTOP");
                          ("created", VStr "2024-05-01T10:00:00Z")]]
                  [("id", VStr "s2"); ("hostname", VStr "WIN-JDOE-PC");
                   ("created", VStr "2024-05-01 10:00:00")]
                  [VDict [("id", VStr "s3"); ("hostname", VStr "JDOE-MAC");
                          ("created", VStr "2024-05-01T10:00:00Z")]]
                  (World (page_requests "systemusers" false 100 0 2
                          ++ page_requests "systems" false 100 0 2) 0)
                  [VDict [("id", VStr "s1"); ("hostname", VStr "WIN-JDOE-LAPTOP");
                          ("created", VStr "2024-05-01T10:00:00Z")]]
                  _ _ _ _ _)).
  - vm_compute. reflexivity.
  - vm_compute. reflexivity.
  - reflexivity.
  - vm_compute. reflexivity.
Defined.

(** ** Whole runs *)

(** One recent, unbound system and one user whose name is in its host
    name: one lookup of the bindings and one bind request. *)
Example run_binds_matching_user :
  main (scripted [page [VDict [("id", VStr "u1"); ("username", VStr "adoe")]]; page [];
                  page [VDict [("id", VStr "s1"); ("hostname", VStr "WIN-ADOE-PC");
                               ("created", VStr "2024-05-01T10:00:00Z")]];
                  page [];
                  Response 200 (VList []);
                  Response 200 VNone])
       (fun _ => 63850154400000000 + Datetime.timedelta_hours 1) 2 start
  = (Ok tt,
     World (page_requests "systemusers" false 100 0 2
            ++ page_requests "systems" false 100 0 2
            ++ [GET "https://console.jumpcloud.com/api/v2/systems/s1/associations?type=user";
                POST "https://console.jumpcloud.com/api/v2/systems/s1/associations"
                     (VDict [("op", VStr "add"); ("type", VStr "user"); ("id", VStr "u1")])])
           1).
Proof. vm_compute. reflexivity. Qed.

(** The run of C1: the system is matched to the user with id 1 and
    bound to it. *)
Example run_binds_jdoe :
  main (scripted [page [VDict [("id", VInt 1); ("username", VStr "jdoe")]]; page [];
                  page [VDict [("id", VStr "s1"); ("hostname", VStr "WIN-JDOE-LAPTOP");
                               ("created", VStr "2024-05-01T10:00:00Z")]];
                  page [];
                  Response 200 (VList []);
                  Response 200 VNone])
       (fun _ => 63850154400000000) 2 start
  = (Ok tt,
     World (page_requests "systemusers" false 100 0 2
            ++ page_requests "systems" false 100 0 2
            ++ [GET "https://console.jumpcloud.com/api/v2/systems/s1/associations?type=user";
                POST "https://console.jumpcloud.com/api/v2/systems/s1/associations"
                     (VDict [("op", VStr "add"); ("type", VStr "user"); ("id", VInt 1)])])
           1).
Proof. vm_compute. reflexivity. Qed.

(** A matched user without a [username] key: the match is made on the
    empty name, and line 158 then raises [KeyError]. *)
Example run_with_nameless_user :
  main (scripted [page [VDict [("id", VStr "u0")]]; page [];
                  page [VDict [("id", VStr "s1"); ("hostname", VStr "WIN-ADOE-PC");
                               ("created", VStr "2024-05-01T10:00:00Z")]];
                  page [];
                  Response 200 (VList [])])
       (fun _ => 63850154400000000) 2 start
  = (Raise KeyError,
     World (page_requests "systemusers" false 100 0 2
            ++ page_requests "systems" false 100 0 2
            ++ [GET "https://console.jumpcloud.com/api/v2/systems/s1/associations?type=user"])
           1).
Proof. vm_compute. reflexivity. Qed.

(** * Further properties of the script *)

(** ** [normalize_hostname] and the host name the orchestrator uses *)

Lemma contains_char (s : string) (c : ascii) :
  PyStr.contains s (String c EmptyString)
  = match s with
    | EmptyString => false
    | String b s' => Ascii.eqb c b || PyStr.contains s' (String c EmptyString)
    end.
Proof. destruct s as [|b s']; cbn; [reflexivity|]. now rewrite andb_true_r. Qed.

(** Removing a character leaves none of it. *)
Lemma replace_char_removes (c : ascii) (s : string) :
  PyStr.contains (PyStr.replace s (String c EmptyString) "") (String c EmptyString) = false.
Proof.
  unfold PyStr.replace. induction s as [|b s IH]; [reflexivity|].
  cbn [PyStr.replace_scan PyStr.startswith String.length Nat.pred].
  rewrite andb_true_r. destruct (Ascii.eqb c b) eqn:E.
  - exact IH.
  - rewrite contains_char, E. exact IH.
Qed.

(** Removing a character brings in no other one. *)
Lemma replace_char_keeps_absent (c d : ascii) (s : string) :
  PyStr.contains s (String d EmptyString) = false ->
  PyStr.contains (PyStr.replace s (String c EmptyString) "") (String d EmptyString) = false.
Proof.
  unfold PyStr.replace. induction s as [|b s IH]; [reflexivity|].
  rewrite contains_char. intros [Hb Hs]%orb_false_iff.
  cbn [PyStr.replace_scan PyStr.startswith String.length Nat.pred].
  rewrite andb_true_r. destruct (Ascii.eqb c b).
  - now apply IH.
  - rewrite contains_char, Hb. now apply IH.
Qed.

(** A pattern whose first character is not in the string is not found. *)
Lemma replace_absent (a : ascii) (old' new s : string) :
  PyStr.contains s (String a EmptyString) = false ->
  PyStr.replace s (String a old') new = s.
Proof.
  unfold PyStr.replace. induction s as [|b s IH]; [reflexivity|].
  rewrite contains_char. intros [Hb Hs]%orb_false_iff.
  cbn [PyStr.replace_scan PyStr.startswith]. rewrite Hb. cbn [andb].
  now rewrite IH.
Qed.

Lemma lower_char_idempotent (c : ascii) :
  PyStr.lower_char (PyStr.lower_char c) = PyStr.lower_char c.
Proof. destruct c as [[] [] [] [] [] [] [] []]; reflexivity. Qed.

Lemma lower_idempotent (s : string) : PyStr.lower (PyStr.lower s) = PyStr.lower s.
Proof.
  induction s as [|c s IH]; [reflexivity|].
  cbn [PyStr.lower]. now rewrite lower_char_idempotent, IH.
Qed.

(** Lowering produces a character only from itself or from its capital. *)
Lemma lower_keeps_absent (d : ascii) (s : string) :
  (forall c, PyStr.lower_char c = d -> c = d) ->
  PyStr.contains s (String d EmptyString) = false ->
  PyStr.contains (PyStr.lower s) (String d EmptyString) = false.
Proof.
  intros Hd. induction s as [|b s IH]; [reflexivity|].
  rewrite contains_char. intros [Hb Hs]%orb_false_iff.
  cbn [PyStr.lower]. rewrite contains_char, (IH Hs), orb_false_r.
  apply Ascii.eqb_neq. intros Heq. symmetry in Heq. apply Hd in Heq.
  apply Ascii.eqb_neq in Hb. congruence.
Qed.

Lemma lower_has_no_capital_W (s : string) : PyStr.contains (PyStr.lower s) "W" = false.
Proof.
  induction s as [|b s IH]; [reflexivity|].
  cbn [PyStr.lower]. rewrite contains_char, IH, orb_false_r.
  destruct b as [[] [] [] [] [] [] [] []]; reflexivity.
Qed.

Lemma hyphen_only_from_hyphen (c : ascii) : PyStr.lower_char c = "-"%char -> c = "-"%char.
Proof. destruct c as [[] [] [] [] [] [] [] []]; vm_compute; congruence. Qed.

Lemma underscore_only_from_underscore (c : ascii) :
  PyStr.lower_char c = "_"%char -> c = "_"%char.
Proof. destruct c as [[] [] [] [] [] [] [] []]; vm_compute; congruence. Qed.

Lemma normalize_hostname_separators (name : string) :
  PyStr.contains (normalize_hostname name) "-" = false
  /\ PyStr.contains (normalize_hostname name) "_" = false.
Proof.
  unfold normalize_hostname. split.
  - apply lower_keeps_absent; [exact hyphen_only_from_hyphen|].
    apply replace_char_keeps_absent, replace_char_removes.
  - apply lower_keeps_absent; [exact underscore_only_from_underscore|].
    apply replace_char_removes.
Qed.

(** X1. The result of [normalize_hostname] holds no hyphen, no
    underscore and no capital W, whatever the name. *)
Theorem normalize_hostname_has_no_separator (name : string) :
  PyStr.contains (normalize_hostname name) "-" = false
  /\ PyStr.contains (normalize_hostname name) "_" = false
  /\ PyStr.contains (normalize_hostname name) "W" = false.
Proof.
  destruct (normalize_hostname_separators name) as [Hh Hu].
  repeat split; [exact Hh | exact Hu |].
  unfold normalize_hostname. apply lower_has_no_capital_W.
Qed.

(** X2. [normalize_hostname] is idempotent. *)
Theorem normalize_hostname_idempotent (name : string) :
  normalize_hostname (normalize_hostname name) = normalize_hostname name.
Proof.
  destruct (normalize_hostname_separators name) as [Hh Hu].
  assert (HW : PyStr.contains (normalize_hostname name) "W" = false).
  { unfold normalize_hostname. apply lower_has_no_capital_W. }
  unfold normalize_hostname at 1.
  rewrite (replace_absent "W" "IN-" "" _ HW).
  rewrite (replace_absent "-" "" "" _ Hh).
  rewrite (replace_absent "_" "" "" _ Hu).
  unfold normalize_hostname. apply lower_idempotent.
Qed.

(** X3. The orchestrator lowers the host name first, and in a lowered
    name the pattern "WIN-" is never found: for every host name, the
    name used for matching is the lowered name with its hyphens and
    underscores removed and nothing else. *)
Theorem clean_name_keeps_lowered_prefix
    (d : list (string * value)) (hostname : string) (w : world) :
  Py.lookup d "hostname" = Some (VStr hostname) ->
  PyStr.replace (PyStr.lower hostname) "WIN-" "" = PyStr.lower hostname
  /\ clean_name_of (VDict d) w
     = (Ok (PyStr.lower
              (PyStr.replace (PyStr.replace (PyStr.lower hostname) "-" "") "_" "")), w).
Proof.
  intros Hd.
  assert (H : PyStr.replace (PyStr.lower hostname) "WIN-" "" = PyStr.lower hostname)
    by apply (replace_absent "W" "IN-" "" _ (lower_has_no_capital_W hostname)).
  split; [exact H|].
  unfold clean_name_of, bind, dict_get, str_lower, ret. rewrite Hd.
  unfold normalize_hostname. now rewrite H.
Qed.

Lemma clean_name_keeps_lowered_prefix_witness :
  clean_name_of (VDict [("id", VStr "s9"); ("hostname", VStr "WIN-Ann_Lee-PC")]) start
  = (Ok "winannleepc", start).
Proof.
  apply (proj2 (clean_name_keeps_lowered_prefix
                  [("id", VStr "s9"); ("hostname", VStr "WIN-Ann_Lee-PC")]
                  "WIN-Ann_Lee-PC" start eq_refl)).
Defined.

(** ** The matcher on arbitrary users *)

(** Normalising a user name looks at the user only. *)
Lemma uname_of_pure (user : value) :
  exists o, o <> OutOfFuel /\ forall w, uname_of user w = (o, w).
Proof.
  unfold uname_of, bind, dict_get, str_lower, ret, raise.
  destruct user as [| | | | |d]; try (exists (Raise AttributeError); split; [discriminate | reflexivity]).
  destruct (match Py.lookup d "username" with Some x => x | None => VStr "" end);
    eexists; (split; [|intros w; reflexivity]); discriminate.
Qed.

(** X4. The first user in collection order whose normalised name is a
    substring of the host name is selected, whatever users come after. *)
Theorem find_match_first_wins
    (clean_name uname : string) (user : value) (pre post : list value) (w : world) :
  Forall (passed_over clean_name) pre ->
  (forall w', uname_of user w' = (Ok uname, w')) ->
  PyStr.contains clean_name uname = true ->
  find_match (pre ++ user :: post) clean_name w = (Ok user, w).
Proof.
  intros Hpre Hu Hc. rewrite find_match_passes_over by assumption.
  cbn [find_match]. unfold bind. now rewrite Hu, Hc.
Qed.

Lemma find_match_first_wins_witness :
  let ann := VDict [("id", VInt 2); ("username", VStr "Ann.Lee")] in
  find_match [VDict [("id", VInt 1); ("username", VStr "bob")]; ann;
              VDict [("id", VInt 3); ("username", VStr "ann")]]
             "winannleepc" start
  = (Ok ann, start).
Proof.
  intros ann.
  apply (find_match_first_wins "winannleepc" "annlee" ann
           [VDict [("id", VInt 1); ("username", VStr "bob")]]
           [VDict [("id", VInt 3); ("username", VStr "ann")]] start).
  - constructor; [|constructor]. exists "bob". split; [intros w; reflexivity | reflexivity].
  - intros w'. reflexivity.
  - reflexivity.
Defined.

(** X5. When no user's normalised name is a substring of the host name,
    the matcher leaves [match] at [None]. *)
Theorem find_match_none (clean_name : string) (users : list value) (w : world) :
  Forall (passed_over clean_name) users ->
  find_match users clean_name w = (Ok VNone, w).
Proof.
  intros H. rewrite <- (app_nil_r users).
  now rewrite find_match_passes_over.
Qed.

Lemma find_match_none_witness :
  find_match [VDict [("id", VInt 1); ("username", VStr "bob")];
              VDict [("id", VInt 2); ("username", VStr "c_d")]]
             "winannleepc" start
  = (Ok VNone, start).
Proof.
  apply find_match_none.
  constructor; [|constructor; [|constructor]].
  - exists "bob". split; [intros w; reflexivity | reflexivity].
  - exists "cd". split; [intros w; reflexivity | reflexivity].
Defined.

(** X6. A user whose [username] is present but not a string (a JSON
    null, say) makes the matcher raise [AttributeError] when the loop
    reaches it; the users after it are not tried. *)
Theorem find_match_raises_on_non_string_username
    (clean_name : string) (d : list (string * value)) (v : value)
    (pre post : list value) (w : world) :
  Forall (passed_over clean_name) pre ->
  Py.lookup d "username" = Some v ->
  (forall s, v <> VStr s) ->
  find_match (pre ++ VDict d :: post) clean_name w = (Raise AttributeError, w).
Proof.
  intros Hpre Hd Hv. rewrite find_match_passes_over by assumption.
  cbn [find_match]. unfold bind, uname_of, bind, dict_get, ret. rewrite Hd.
  destruct v; try reflexivity. now destruct (Hv s).
Qed.

Lemma find_match_raises_on_non_string_username_witness :
  find_match [VDict [("id", VInt 1); ("username", VStr "bob")];
              VDict [("id", VInt 2); ("username", VNone)];
              VDict [("id", VInt 3); ("username", VStr "ann")]]
             "winannleepc" start
  = (Raise AttributeError, start).
Proof.
  apply (find_match_raises_on_non_string_username "winannleepc"
           [("id", VInt 2); ("username", VNone)] VNone
           [VDict [("id", VInt 1); ("username", VStr "bob")]]
           [VDict [("id", VInt 3); ("username", VStr "ann")]] start).
  - constructor; [|constructor]. exists "bob". split; [intros w; reflexivity | reflexivity].
  - reflexivity.
  - discriminate.
Defined.

(** X7. Whatever the matcher returns is [None] or one of the users, and
    a user it returns does match: its normalised name is a substring of
    the host name.  The matcher sends nothing. *)
Theorem find_match_sound (clean_name : string) (users : list value) (w : world) :
  forall o w',
    find_match users clean_name w = (o, w') ->
    w' = w
    /\ o <> OutOfFuel
    /\ forall m, o = Ok m ->
         m = VNone
         \/ (m ∈ users
             /\ exists uname,
                  (forall w0, uname_of m w0 = (Ok uname, w0))
                  /\ PyStr.contains clean_name uname = true).
Proof.
  induction users as [|u users IH]; intros o w' H.
  - cbn in H. injection H as <- <-. repeat split; [discriminate|].
    intros m [= <-]. now left.
  - cbn [find_match] in H. unfold bind in H.
    destruct (uname_of_pure u) as (ou & Hou & Hu). rewrite Hu in H.
    destruct ou as [uname|e|]; [| |contradiction].
    + destruct (PyStr.contains clean_name uname) eqn:Hc.
      * cbn in H. injection H as <- <-. repeat split; [discriminate|].
        intros m [= <-]. right. split; [now left|]. now exists uname.
      * destruct (IH o w' H) as (Hw & Ho & Hm). repeat split; [assumption..|].
        intros m Hom. destruct (Hm m Hom) as [-> | [Hin Hex]]; [now left|].
        right. split; [now right | assumption].
    + injection H as <- <-. repeat split; discriminate.
Qed.

Lemma find_match_sound_witness :
  let ann := VDict [("id", VInt 2); ("username", VStr "Ann.Lee")] in
  ann ∈ [VDict [("id", VInt 1); ("username", VStr "bob")]; ann]
  /\ exists uname,
       (forall w0, uname_of ann w0 = (Ok uname, w0))
       /\ PyStr.contains "winannleepc" uname = true.
Proof.
  intros ann.
  destruct (proj2 (proj2 (find_match_sound "winannleepc"
                            [VDict [("id", VInt 1); ("username", VStr "bob")]; ann]
                            start (Ok ann) start eq_refl))
                  ann eq_refl) as [H | H]; [discriminate | exact H].
Defined.

(** ** What [get_all] sends and returns, for every service *)

Section Fetch.

Variable service : list request -> request -> reply.
Variables (endpoint : string) (use_v2 : bool) (limit : Z).

(** One turn of the loop, by what the reply is. *)
Lemma step_cases (results : list value) (skip : Z) (seen : gset string) (w : world) :
  let req := GET (page_url endpoint use_v2 limit skip) in
  get_all_step service endpoint use_v2 limit results skip seen w
  = (match page_items (service (log w) req) with
     | Some items =>
         if negb (Py.truthy items) || bool_decide (Py.str items ∈ seen)
         then Ok Break
         else match Py.iter items with
              | Some l => Ok (Continue (results ++ l) (skip + limit)
                                       (seen ∪ {[Py.str items]}))
              | None => Raise TypeError
              end
     | None => if fails (service (log w) req) then Ok Break else Raise AttributeError
     end, sent w req).
Proof.
  intros req. unfold get_all_step, try_except, bind, session_get, send. fold req.
  destruct (service (log w) req) as [|st body]; [reflexivity|].
  unfold raise_for_status. cbn [fst snd page_items fails].
  destruct (ok st); [|destruct body; reflexivity].
  destruct body as [| | | | |d]; try reflexivity.
  cbn [dict_get ret negb].
  set (items := match Py.lookup d "results" with Some x => x | None => VDict d end).
  destruct (negb (Py.truthy items) || bool_decide (Py.str items ∈ seen)); [reflexivity|].
  unfold extend. destruct (Py.iter items); reflexivity.
Qed.

Lemma get_all_loop_requests (fuel : nat) :
  forall results skip seen w,
  exists n,
    (n <= fuel)%nat
    /\ snd (get_all_loop service fuel endpoint use_v2 limit results skip seen w)
       = World (log w ++ page_requests endpoint use_v2 limit skip n) (clock_reads w).
Proof.
  induction fuel as [|fuel IH]; intros results skip seen w.
  - exists O. split; [lia|]. cbn. rewrite app_nil_r. now destruct w.
  - cbn [get_all_loop]. unfold bind. rewrite step_cases.
    set (req := GET (page_url endpoint use_v2 limit skip)).
    assert (Hone : exists n, (n <= S fuel)%nat
              /\ sent w req
                 = World (log w ++ page_requests endpoint use_v2 limit skip n)
                         (clock_reads w)).
    { exists 1%nat. split; [lia | reflexivity]. }
    destruct (page_items (service (log w) req)) as [items|];
      [|destruct (fails (service (log w) req)); exact Hone].
    destruct (negb (Py.truthy items) || bool_decide (Py.str items ∈ seen)); [exact Hone|].
    destruct (Py.iter items) as [l|]; [|exact Hone].
    destruct (IH (results ++ l) (skip + limit) (seen ∪ {[Py.str items]}) (sent w req))
      as (n & Hn & Hlog).
    exists (S n). split; [lia|]. rewrite Hlog.
    cbn [sent log clock_reads page_requests]. now rewrite <- app_assoc.
Qed.

Lemma get_all_loop_received (fuel : nat) :
  forall results skip seen w r w',
    get_all_loop service fuel endpoint use_v2 limit results skip seen w = (Ok r, w') ->
    exists pages : list value,
      Forall (fun p => Py.truthy p = true /\ is_Some (Py.iter p) /\ Py.str p ∉ seen) pages
      /\ NoDup (Py.str <$> pages)
      /\ (forall k p, pages !! k = Some p ->
            page_items (service (log w ++ page_requests endpoint use_v2 limit skip k)
                                (GET (page_url endpoint use_v2 limit
                                               (skip + limit * Z.of_nat k))))
            = Some p)
      /\ r = results ++ concat (page_elements <$> pages)
      /\ w' = World (log w ++ page_requests endpoint use_v2 limit skip (S (length pages)))
                    (clock_reads w).
Proof.
  induction fuel as [|fuel IH]; intros results skip seen w r w' H; [discriminate|].
  cbn [get_all_loop] in H. unfold bind in H. rewrite step_cases in H.
  set (req := GET (page_url endpoint use_v2 limit skip)) in *.
  assert (Hnone : (Ok r, w') = (Ok results, sent w req) ->
            exists pages : list value,
              Forall (fun p => Py.truthy p = true /\ is_Some (Py.iter p) /\ Py.str p ∉ seen)
                     pages
              /\ NoDup (Py.str <$> pages)
              /\ (forall k p, pages !! k = Some p ->
                    page_items (service (log w ++ page_requests endpoint use_v2 limit skip k)
                                        (GET (page_url endpoint use_v2 limit
                                                       (skip + limit * Z.of_nat k))))
                    = Some p)
              /\ r = results ++ concat (page_elements <$> pages)
              /\ w' = World (log w ++ page_requests endpoint use_v2 limit skip
                                                    (S (length pages)))
                            (clock_reads w)).
  { intros [= -> ->]. exists []. repeat split.
    - constructor.
    - constructor.
    - intros k p Hk. destruct k; discriminate.
    - cbn. now rewrite app_nil_r. }
  destruct (page_items (service (log w) req)) as [items|] eqn:Hitems;
    [|destruct (fails (service (log w) req)); [now apply Hnone | discriminate]].
  destruct (negb (Py.truthy items)) eqn:Htruthy; [now apply Hnone|].
  destruct (bool_decide (Py.str items ∈ seen)) eqn:Hseen; [now apply Hnone|].
  cbn [orb] in H. destruct (Py.iter items) as [l|] eqn:Hiter; [|discriminate].
  apply IH in H as (pages & Hall & Hdup & Hserved & -> & ->).
  apply negb_false_iff in Htruthy. apply bool_decide_eq_false_1 in Hseen.
  exists (items :: pages). repeat split.
  - constructor.
    + repeat split; [assumption | now rewrite Hiter | assumption].
    + eapply Forall_impl; [exact Hall|]. cbn. intros p (Ht & Hi & Hs).
      repeat split; [assumption..|]. intros Hin. apply Hs. apply elem_of_union. now left.
  - rewrite fmap_cons. apply NoDup_cons. split; [|assumption].
    intros Hin. apply list_elem_of_fmap in Hin as (p & Heq & Hp).
    rewrite Forall_forall in Hall. destruct (Hall p Hp) as (_ & _ & Hs).
    apply Hs. apply elem_of_union. right. apply elem_of_singleton. now symmetry.
  - intros k p Hk. destruct k as [|k].
    + injection Hk as <-. cbn [page_requests Z.of_nat].
      now rewrite Z.mul_0_r, Z.add_0_r, app_nil_r.
    + specialize (Hserved k p Hk). cbn [sent log] in Hserved.
      rewrite <- app_assoc in Hserved. cbn [app] in Hserved.
      replace (skip + limit * Z.of_nat (S k)) with (skip + limit + limit * Z.of_nat k) by lia.
      exact Hserved.
  - rewrite fmap_cons. cbn [concat]. unfold page_elements at 2. rewrite Hiter.
    now rewrite <- app_assoc.
  - cbn [sent log clock_reads length page_requests]. now rewrite <- app_assoc.
Qed.

End Fetch.

(** X8. Whatever the service answers and however the fetch ends, the
    requests [get_all] sends are the page requests for skip 0, 100, 200
    and so on, in order and without a gap, one per turn of the loop; it
    sends nothing else and does not read the clock. *)
Theorem get_all_sends_consecutive_pages
    (service : list request -> request -> reply) (fuel : nat)
    (endpoint : string) (use_v2 : bool) (w : world) :
  exists n,
    (n <= fuel)%nat
    /\ snd (get_all service fuel endpoint use_v2 w)
       = World (log w ++ page_requests endpoint use_v2 100 0 n) (clock_reads w).
Proof. apply get_all_loop_requests. Qed.

(** X9. A fetch that returns has received, before the reply that ended
    it, a run of pages that were each non-empty and each rendered to a
    string not seen before in this fetch; the result is exactly the
    elements of those pages, in order, and one request was sent per
    such page and one more. *)
Theorem get_all_returns_received_pages
    (service : list request -> request -> reply) (fuel : nat)
    (endpoint : string) (use_v2 : bool) (w : world) (r : list value) (w' : world) :
  get_all service fuel endpoint use_v2 w = (Ok r, w') ->
  exists pages : list value,
    Forall (fun p => Py.truthy p = true /\ is_Some (Py.iter p)) pages
    /\ NoDup (Py.str <$> pages)
    /\ (forall k p, pages !! k = Some p ->
          page_items (service (log w ++ page_requests endpoint use_v2 100 0 k)
                              (GET (page_url endpoint use_v2 100 (100 * Z.of_nat k))))
          = Some p)
    /\ r = concat (page_elements <$> pages)
    /\ w' = World (log w ++ page_requests endpoint use_v2 100 0 (S (length pages)))
                  (clock_reads w).
Proof.
  intros H. apply get_all_loop_received in H as (pages & Hall & Hdup & Hserved & Hr & Hw).
  exists pages. repeat split; try assumption.
  eapply Forall_impl; [exact Hall|]. cbn. tauto.
Qed.

Lemma get_all_returns_received_pages_witness :
  let a := VDict [("id", VInt 1)] in
  let b := VDict [("id", VInt 2)] in
  exists pages : list value,
    NoDup (Py.str <$> pages)
    /\ [a; b] = concat (page_elements <$> pages)
    /\ length pages = 2%nat.
Proof.
  intros a b.
  destruct (get_all_returns_received_pages
              (scripted [page [a]; page [b]; page [a]; page []]) 5 "systems" false start
              [a; b] (World (page_requests "systems" false 100 0 3) 0)
              ltac:(vm_compute; reflexivity))
    as (pages & _ & Hdup & _ & Hr & Hw).
  exists pages. repeat split; [assumption..|].
  injection Hw as Hw. destruct pages as [|? [|? [|? ?]]]; try reflexivity; discriminate.
Defined.

(** X10. A response that passes [raise_for_status] but whose body is not
    a JSON object (a bare array, say) makes the fetch raise
    [AttributeError]: the handler of the loop catches request errors
    only, so what was accumulated is not returned. *)
Theorem get_all_raises_on_body_without_get
    (service : list request -> request -> reply) (fuel : nat)
    (endpoint : string) (use_v2 : bool) (limit : Z)
    (results : list value) (skip : Z) (seen : gset string) (w : world)
    (status_code : Z) (body : value) :
  service (log w) (GET (page_url endpoint use_v2 limit skip)) = Response status_code body ->
  ok status_code = true ->
  (forall d, body <> VDict d) ->
  get_all_loop service (S fuel) endpoint use_v2 limit results skip seen w
  = (Raise AttributeError, sent w (GET (page_url endpoint use_v2 limit skip))).
Proof.
  intros Hreply Hok Hbody. cbn [get_all_loop]. unfold bind.
  rewrite step_cases, Hreply. cbn [page_items fails]. rewrite Hok.
  destruct body as [| | | | |d]; try reflexivity. now destruct (Hbody d).
Qed.

Lemma get_all_raises_on_body_without_get_witness :
  get_all (scripted [Response 200 (VList [VDict [("id", VInt 2)]])]) 4 "systems" false start
  = (Raise AttributeError, World (page_requests "systems" false 100 0 1) 0).
Proof.
  apply (get_all_raises_on_body_without_get
           (scripted [Response 200 (VList [VDict [("id", VInt 2)]])])
           3 "systems" false 100 [] 0 ∅ start
           200 (VList [VDict [("id", VInt 2)]])).
  - reflexivity.
  - reflexivity.
  - discriminate.
Defined.

(** The items accumulated before such a body are lost with the error. *)
Example get_all_loses_pages_on_bare_array :
  get_all (scripted [page [VDict [("id", VInt 1)]];
                     Response 200 (VList [VDict [("id", VInt 2)]])])
          4 "systems" false start
  = (Raise AttributeError, World (page_requests "systems" false 100 0 2) 0).
Proof. vm_compute. reflexivity. Qed.

(** X11. A [results] field that is neither empty nor iterable (a number,
    [true]) makes the fetch raise [TypeError] at [extend]. *)
Theorem get_all_raises_on_non_iterable_results
    (service : list request -> request -> reply) (fuel : nat)
    (endpoint : string) (use_v2 : bool) (limit : Z)
    (results : list value) (skip : Z) (seen : gset string) (w : world) (items : value) :
  page_items (service (log w) (GET (page_url endpoint use_v2 limit skip))) = Some items ->
  Py.truthy items = true ->
  Py.iter items = None ->
  Py.str items ∉ seen ->
  get_all_loop service (S fuel) endpoint use_v2 limit results skip seen w
  = (Raise TypeError, sent w (GET (page_url endpoint use_v2 limit skip))).
Proof.
  intros Hitems Htruthy Hiter Hnew. cbn [get_all_loop]. unfold bind.
  rewrite step_cases, Hitems, Htruthy, Hiter, (bool_decide_eq_false_2 _ Hnew).
  reflexivity.
Qed.

Lemma get_all_raises_on_non_iterable_results_witness :
  get_all (scripted [Response 200 (VDict [("totalCount", VInt 0); ("results", VInt 5)])])
          4 "systems" false start
  = (Raise TypeError, World (page_requests "systems" false 100 0 1) 0).
Proof.
  apply (get_all_raises_on_non_iterable_results
           (scripted [Response 200 (VDict [("totalCount", VInt 0); ("results", VInt 5)])])
           3 "systems" false 100 [] 0 ∅ start (VInt 5)).
  - reflexivity.
  - reflexivity.
  - reflexivity.
  - apply not_elem_of_empty.
Defined.

(** X12. A response object without a [results] key is itself taken as
    the page: when it is non-empty and new, its keys, as strings, are
    appended to the results and the fetch goes on with the next page. *)
Theorem get_all_takes_keys_of_object_without_results
    (service : list request -> request -> reply) (fuel : nat)
    (endpoint : string) (use_v2 : bool) (limit : Z)
    (results : list value) (skip : Z) (seen : gset string) (w : world)
    (status_code : Z) (d : list (string * value)) :
  service (log w) (GET (page_url endpoint use_v2 limit skip))
  = Response status_code (VDict d) ->
  ok status_code = true ->
  Py.lookup d "results" = None ->
  d <> [] ->
  Py.str (VDict d) ∉ seen ->
  get_all_loop service (S fuel) endpoint use_v2 limit results skip seen w
  = get_all_loop service fuel endpoint use_v2 limit
      (results ++ List.map (fun kv => VStr (fst kv)) d) (skip + limit)
      (seen ∪ {[Py.str (VDict d)]})
      (sent w (GET (page_url endpoint use_v2 limit skip))).
Proof.
  intros Hreply Hok Hkey Hne Hnew. cbn [get_all_loop]. unfold bind.
  rewrite step_cases, Hreply. cbn [page_items]. rewrite Hok, Hkey.
  rewrite (bool_decide_eq_false_2 _ Hnew).
  destruct d; [contradiction|]. reflexivity.
Qed.

Lemma get_all_takes_keys_of_object_without_results_witness :
  get_all (scripted [Response 200 (VDict [("message", VStr "try later"); ("code", VInt 7)])])
          4 "systems" false start
  = (Ok [VStr "message"; VStr "code"], World (page_requests "systems" false 100 0 2) 0).
Proof.
  unfold get_all.
  rewrite (get_all_takes_keys_of_object_without_results
             (scripted [Response 200 (VDict [("message", VStr "try later"); ("code", VInt 7)])])
             3 "systems" false 100 [] 0 ∅ start 200
             [("message", VStr "try later"); ("code", VInt 7)]
             eq_refl eq_refl eq_refl ltac:(discriminate) ltac:(apply not_elem_of_empty)).
  vm_compute. reflexivity.
Defined.

(** ** The association manager, for every service *)

Lemma get_bound_users_reply
    (service : list request -> request -> reply) (system_id : value) (w : world) :
  get_bound_users service system_id w
  = (Ok (bound_users_of (service (log w) (bound_users_request system_id))),
     sent w (bound_users_request system_id)).
Proof.
  unfold get_bound_users, try_except, bind, session_get, send, bound_users_request.
  destruct (service (log w) (GET (associations_url system_id ++ "?type=user")%string))
    as [|st body]; [reflexivity|].
  unfold raise_for_status. cbn [fst bound_users_of]. destruct (ok st); reflexivity.
Qed.

(** X13. [get_bound_users] always returns: it sends one request, and
    gives the decoded body when the request is answered with a status
    outside 400..599, and the empty list when the request raises or the
    status is an error. *)
Theorem get_bound_users_swallows_failures
    (service : list request -> request -> reply) (system_id : value) (w : world) :
  let req := GET (associations_url system_id ++ "?type=user")%string in
  get_bound_users service system_id w
  = (Ok (match service (log w) req with
         | Response status_code body => if ok status_code then body else VList []
         | ConnectionError => VList []
         end),
     sent w req).
Proof. intros req. apply get_bound_users_reply. Qed.

Lemma bind_user_no_conflict_witness :
  bind_user (fun _ _ => Response 404 (VDict [("message", VStr "Not Found")]))
            (VStr "s1") (VInt 7) start
  = (Ok false,
     World [POST "https://console.jumpcloud.com/api/v2/systems/s1/associations"
                 (VDict [("op", VStr "add"); ("type", VStr "user"); ("id", VInt 7)])] 0).
Proof.
  apply (bind_user_no_conflict
           (fun _ _ => Response 404 (VDict [("message", VStr "Not Found")]))
           (VStr "s1") (VInt 7) start 404 (VDict [("message", VStr "Not Found")])).
  - reflexivity.
  - discriminate.
Defined.

Lemma bind_user_unbind_raises_witness :
  let url := "https://console.jumpcloud.com/api/v2/systems/s1/associations" in
  let payload op := VDict [("op", VStr op); ("type", VStr "user"); ("id", VInt 7)] in
  bind_user (scripted [Response 409 VNone]) (VStr "s1") (VInt 7) start
  = (Raise RequestException, World [POST url (payload "add"); POST url (payload "remove")] 0).
Proof.
  intros url payload.
  apply (bind_user_unbind_raises (scripted [Response 409 VNone])
           (VStr "s1") (VInt 7) start VNone); reflexivity.
Defined.

(** X16. [bind_user] is no retry loop: for every service it sends the
    bind request, and at most one unbind request and one more bind
    request after it, in that order. *)
Theorem bind_user_sends_at_most_three
    (service : list request -> request -> reply) (system_id user_id : value) (w : world) :
  let add := POST (associations_url system_id) (association_payload "add" user_id) in
  let remove := POST (associations_url system_id) (association_payload "remove" user_id) in
  exists l,
    snd (bind_user service system_id user_id w) = World (log w ++ l) (clock_reads w)
    /\ (l = [add] \/ l = [add; remove] \/ l = [add; remove; add])
    /\ fst (bind_user service system_id user_id w) <> OutOfFuel.
Proof.
  intros add remove.
  unfold bind_user, unbind_user, bind, session_post, send. fold add remove.
  destruct (service (log w) add) as [|st body].
  { exists [add]. repeat split; [now left | discriminate]. }
  cbn [fst]. destruct (st =? 409).
  - cbn [log clock_reads].
    destruct (service (log w ++ [add]) remove) as [|st1 body1].
    { exists [add; remove]. cbn. rewrite <- app_assoc.
      repeat split; [right; now left | discriminate]. }
    cbn [ret log clock_reads].
    exists [add; remove; add].
    destruct (service ((log w ++ [add]) ++ [remove]) add) as [|st2 body2];
      cbn; rewrite <- !app_assoc; (repeat split; [right; now right | discriminate]).
  - exists [add]. repeat split; [now left | discriminate].
Qed.

(** ** The recency check and the filter, for every clock *)

(** X17. The 24-hour limit is inclusive and exact to the microsecond:
    a timestamp that parses is recent when the clock is at most
    86,400,000,000 microseconds past it, and not recent otherwise. *)
Theorem recency_limit_is_inclusive
    (clock : nat -> Z) (timestamp : string) (t : Z) (w : world) :
  created_time timestamp = Some t ->
  (clock (clock_reads w) - t <= 86400000000 ->
   was_created_within_last_24_hours clock (VStr timestamp) w = (Ok true, tick w))
  /\ (86400000000 < clock (clock_reads w) - t ->
      was_created_within_last_24_hours clock (VStr timestamp) w = (Ok false, tick w)).
Proof.
  intros Ht. rewrite (was_created_parsed clock timestamp t w Ht).
  change (Datetime.timedelta_hours 24) with 86400000000.
  split; intros H.
  - apply Z.leb_le in H. now rewrite H.
  - apply Z.leb_gt in H. now rewrite H.
Qed.

Lemma recency_limit_is_inclusive_witness :
  was_created_within_last_24_hours (fun _ => 63850154400000000 + 86400000000)
    (VStr "2024-05-01T10:00:00Z") start = (Ok true, World [] 1)
  /\ was_created_within_last_24_hours (fun _ => 63850154400000000 + 86400000000)
       (VStr "2024-05-01T09:59:59.999999Z") start = (Ok false, World [] 1).
Proof.
  split.
  - apply (proj1 (recency_limit_is_inclusive (fun _ => 63850154400000000 + 86400000000)
                    "2024-05-01T10:00:00Z" 63850154400000000 start
                    ltac:(vm_compute; reflexivity))).
    vm_compute. discriminate.
  - apply (proj2 (recency_limit_is_inclusive (fun _ => 63850154400000000 + 86400000000)
                    "2024-05-01T09:59:59.999999Z" 63850154399999999 start
                    ltac:(vm_compute; reflexivity))).
    vm_compute. reflexivity.
Defined.

(** X18. A [created] value that is truthy but not a string (a number of
    seconds, say) makes the check raise [TypeError], which the handler
    for [ValueError] does not catch; the clock is not read. *)
Theorem non_string_timestamp_raises_TypeError
    (clock : nat -> Z) (timestamp : value) (w : world) :
  Py.truthy timestamp = true ->
  (forall s, timestamp <> VStr s) ->
  was_created_within_last_24_hours clock timestamp w = (Raise TypeError, w).
Proof.
  intros Ht Hs. unfold was_created_within_last_24_hours. rewrite Ht. cbn [negb].
  unfold try_except, bind, strptime.
  destruct timestamp as [| | |s| |]; try reflexivity. now destruct (Hs s).
Qed.

Lemma non_string_timestamp_raises_TypeError_witness :
  was_created_within_last_24_hours (fun _ => 0) (VInt 1714557600) start
  = (Raise TypeError, start).
Proof.
  apply non_string_timestamp_raises_TypeError; [reflexivity | discriminate].
Defined.

Lemma recent_systems_effects (clock : nat -> Z) (systems : list value) :
  forall w o w',
    recent_systems clock systems w = (o, w') ->
    log w' = log w
    /\ (clock_reads w <= clock_reads w' <= clock_reads w + length systems)%nat.
Proof.
  assert (Hcheck : forall created w0, exists o w1,
             was_created_within_last_24_hours clock created w0 = (o, w1)
             /\ log w1 = log w0
             /\ (clock_reads w0 <= clock_reads w1 <= S (clock_reads w0))%nat).
  { intros created w0. unfold was_created_within_last_24_hours.
    destruct (negb (Py.truthy created)).
    { exists (Ok false), w0. repeat split; lia. }
    unfold try_except, bind, strptime, utcnow.
    destruct created as [| | |s| |];
      try (exists (Raise TypeError), w0; repeat split; lia).
    destruct (Datetime.strptime s "%Y-%m-%dT%H:%M:%S.%fZ") as [t|].
    { eexists _, _. split; [reflexivity|]. cbn. split; [reflexivity | lia]. }
    cbn [raise exn_eqb].
    destruct (Datetime.strptime s "%Y-%m-%dT%H:%M:%SZ") as [t|];
      eexists _, _; (split; [reflexivity|]); cbn; (split; [reflexivity | lia]). }
  induction systems as [|sys systems IH]; intros w o w' H.
  - cbn in H. injection H as <- <-. split; [reflexivity | lia].
  - cbn [recent_systems] in H. unfold bind in H. cbn [length].
    assert (Hw := dict_get_world sys "created" VNone w).
    destruct (dict_get sys "created" VNone w) as [[created|e|] w0];
      cbn [snd] in Hw; subst w0;
      [|injection H as <- <-; split; [reflexivity | lia]..].
    destruct (Hcheck created w) as (oc & w1 & Hc & Hlog & Hclock). rewrite Hc in H.
    destruct oc as [keep|e|]; [|injection H as <- <-; split; [assumption | lia]..].
    destruct (recent_systems clock systems w1) as [[rest|e|] w2] eqn:E;
      destruct (IH w1 _ _ E) as [Hlog' Hclock'];
      cbn [ret] in H; injection H as <- <-; (split; [congruence | lia]).
Qed.

(** X19. The filter works offline: for every list of systems it sends no
    request, and it reads the clock at most once per system. *)
Theorem recent_systems_sends_nothing (clock : nat -> Z) (systems : list value) (w : world) :
  log (snd (recent_systems clock systems w)) = log w
  /\ (clock_reads w <= clock_reads (snd (recent_systems clock systems w))
      <= clock_reads w + length systems)%nat.
Proof.
  destruct (recent_systems clock systems w) as [o w'] eqn:E. cbn [snd].
  exact (recent_systems_effects clock systems w o w' E).
Qed.

(** X20. What the filter returns is a subsequence of the systems it was
    given: same records, same order, nothing added. *)
Theorem recent_systems_is_subsequence
    (clock : nat -> Z) (systems : list value) (w : world) (recent : list value) (w' : world) :
  recent_systems clock systems w = (Ok recent, w') ->
  sublist recent systems.
Proof.
  revert w recent w'. induction systems as [|sys systems IH]; intros w recent w' H.
  - cbn in H. injection H as <- <-. constructor.
  - cbn [recent_systems] in H. unfold bind in H.
    destruct (dict_get sys "created" VNone w) as [[created|e|] w0]; try discriminate.
    destruct (was_created_within_last_24_hours clock created w0) as [[keep|e|] w1];
      try discriminate.
    destruct (recent_systems clock systems w1) as [[rest|e|] w2] eqn:E; try discriminate.
    cbn [ret] in H. injection H as <- <-.
    specialize (IH w1 rest w2 E).
    destruct keep; [now apply sublist_skip | now apply sublist_cons].
Qed.

Lemma recent_systems_is_subsequence_witness :
  let fresh := VDict [("id", VStr "s1"); ("created", VStr "2024-05-01T10:00:00Z")] in
  let stale := VDict [("id", VStr "s2"); ("created", VStr "2024-04-01T10:00:00Z")] in
  sublist [fresh] [stale; fresh; stale].
Proof.
  intros fresh stale.
  apply (recent_systems_is_subsequence (fun _ => 63850154400000000 + 5)
           [stale; fresh; stale] start [fresh] (World [] 3)).
  vm_compute. reflexivity.
Defined.

(** ** One system in the loop of the orchestrator *)

Section System.

Variable service : list request -> request -> reply.
Variable users : list value.

(** A system whose host name normalises and that has no bound user:
    what is left of the loop body is the matcher, the two subscripts
    and [bind_user].  The loop over [bound] that would unbind users is
    never run, since [bound] is falsy there. *)
Lemma process_system_unbound (d : list (string * value)) (clean_name : string) (w : world) :
  (forall w', clean_name_of (VDict d) w' = (Ok clean_name, w')) ->
  Py.truthy (bound_users_of (service (log w) (bound_users_request (id_of d)))) = false ->
  process_system service users (VDict d) w
  = (match_ <- find_match users clean_name ;;
     if negb (Py.truthy match_) then ret tt
     else
       subscript match_ "username" ;;;
       user_id <- subscript match_ "id" ;;
       bind_user service (id_of d) user_id ;;;
       ret tt) (sent w (bound_users_request (id_of d))).
Proof.
  intros Hname Hbound. unfold process_system.
  unfold bind at 1. cbn [dict_get ret]. fold (id_of d).
  unfold bind at 1. rewrite Hname.
  unfold bind at 1. rewrite get_bound_users_reply, Hbound.
  unfold bind.
  destruct (find_match users clean_name (sent w (bound_users_request (id_of d))))
    as [[m|e|] w1]; reflexivity.
Qed.

(** X21. A system for which the lookup returns a non-empty list of
    bound users is skipped: after the lookup nothing is sent, whatever
    the users are. *)
Theorem process_system_skips_bound_system
    (d : list (string * value)) (clean_name : string) (w : world) :
  (forall w', clean_name_of (VDict d) w' = (Ok clean_name, w')) ->
  Py.truthy (bound_users_of (service (log w) (bound_users_request (id_of d)))) = true ->
  process_system service users (VDict d) w
  = (Ok tt, sent w (bound_users_request (id_of d))).
Proof.
  intros Hname Hbound. unfold process_system.
  unfold bind at 1. cbn [dict_get ret]. fold (id_of d).
  unfold bind at 1. rewrite Hname.
  unfold bind at 1. now rewrite get_bound_users_reply, Hbound.
Qed.

(** X22. A failed lookup counts as no binding: when the lookup request
    raises or is answered with an error status, the system is treated
    like an unbound one, and with a matching user that has both keys the
    rest of the loop body is exactly [bind_user] for the system and the
    user's id.  No request to unbind is sent outside [bind_user]. *)
Theorem process_system_binds_after_failed_lookup
    (d du : list (string * value)) (clean_name : string) (name user_id : value) (w : world) :
  (forall w', clean_name_of (VDict d) w' = (Ok clean_name, w')) ->
  fails (service (log w) (bound_users_request (id_of d))) = true ->
  (forall w', find_match users clean_name w' = (Ok (VDict du), w')) ->
  Py.lookup du "username" = Some name ->
  Py.lookup du "id" = Some user_id ->
  process_system service users (VDict d) w
  = (bind_user service (id_of d) user_id ;;; ret tt)
      (sent w (bound_users_request (id_of d))).
Proof.
  intros Hname Hfail Hmatch Hu Hid.
  rewrite (process_system_unbound d clean_name w Hname).
  - unfold bind at 1. rewrite Hmatch.
    destruct du as [|entry du]; [discriminate|].
    cbn [Py.truthy negb]. unfold bind at 1. cbn [subscript]. rewrite Hu.
    unfold bind at 1. cbn [ret subscript]. now rewrite Hid.
  - destruct (service (log w) (bound_users_request (id_of d))) as [|st body]; [reflexivity|].
    cbn in Hfail |- *. apply negb_true_iff in Hfail. now rewrite Hfail.
Qed.

(** X23. An unbound system that no user matches gets no bind request. *)
Theorem process_system_without_match_sends_no_post
    (d : list (string * value)) (clean_name : string) (w : world) :
  (forall w', clean_name_of (VDict d) w' = (Ok clean_name, w')) ->
  Py.truthy (bound_users_of (service (log w) (bound_users_request (id_of d)))) = false ->
  Forall (passed_over clean_name) users ->
  process_system service users (VDict d) w
  = (Ok tt, sent w (bound_users_request (id_of d))).
Proof.
  intros Hname Hbound Hnone.
  rewrite (process_system_unbound d clean_name w Hname Hbound).
  unfold bind. rewrite <- (app_nil_r users).
  now rewrite find_match_passes_over.
Qed.

(** X24. A user record without a [username] key matches every unbound
    system that reaches it, since its name normalises to the empty
    string; the run then stops with [KeyError] at the line that prints
    the match, before any bind request.  A record that is empty
    altogether matches too, but is falsy and so taken for no match. *)
Theorem process_system_nameless_match
    (d du : list (string * value)) (clean_name : string) (pre post : list value) (w : world) :
  users = pre ++ VDict du :: post ->
  (forall w', clean_name_of (VDict d) w' = (Ok clean_name, w')) ->
  Py.truthy (bound_users_of (service (log w) (bound_users_request (id_of d)))) = false ->
  Forall (passed_over clean_name) pre ->
  Py.lookup du "username" = None ->
  process_system service users (VDict d) w
  = (match du with
     | [] => Ok tt
     | _ :: _ => Raise KeyError
     end, sent w (bound_users_request (id_of d))).
Proof.
  intros Husers Hname Hbound Hpre Hu.
  rewrite (process_system_unbound d clean_name w Hname Hbound).
  unfold bind at 1. rewrite Husers, find_match_passes_over by assumption.
  cbn [find_match]. unfold bind at 1.
  unfold uname_of, bind at 1 2, dict_get, str_lower, ret. rewrite Hu.
  cbn [PyStr.lower PyStr.replace PyStr.replace_scan]. rewrite contains_empty.
  destruct du as [|entry du]; [reflexivity|].
  cbn [Py.truthy negb]. unfold bind at 1. cbn [subscript]. now rewrite Hu.
Qed.

(** X25. A matched user without an [id] key makes the loop body raise
    [KeyError] after the lookup, with no bind request sent. *)
Theorem process_system_match_without_id
    (d du : list (string * value)) (clean_name : string) (name : value) (w : world) :
  (forall w', clean_name_of (VDict d) w' = (Ok clean_name, w')) ->
  Py.truthy (bound_users_of (service (log w) (bound_users_request (id_of d)))) = false ->
  (forall w', find_match users clean_name w' = (Ok (VDict du), w')) ->
  Py.lookup du "username" = Some name ->
  Py.lookup du "id" = None ->
  process_system service users (VDict d) w
  = (Raise KeyError, sent w (bound_users_request (id_of d))).
Proof.
  intros Hname Hbound Hmatch Hu Hid.
  rewrite (process_system_unbound d clean_name w Hname Hbound).
  unfold bind at 1. rewrite Hmatch.
  destruct du as [|entry du]; [discriminate|].
  cbn [Py.truthy negb]. unfold bind at 1. cbn [subscript]. rewrite Hu.
  unfold bind at 1. cbn [ret subscript]. now rewrite Hid.
Qed.

End System.

Lemma process_system_skips_bound_system_witness :
  process_system (scripted [Response 200 (VList [VDict [("id", VStr "u9")]])])
    [VDict [("id", VStr "u1"); ("username", VStr "adoe")]]
    (VDict [("id", VStr "s1"); ("hostname", VStr "WIN-ADOE-PC")]) start
  = (Ok tt,
     World [GET "https://console.jumpcloud.com/api/v2/systems/s1/associations?type=user"] 0).
Proof.
  apply (process_system_skips_bound_system
           (scripted [Response 200 (VList [VDict [("id", VStr "u9")]])])
           [VDict [("id", VStr "u1"); ("username", VStr "adoe")]]
           [("id", VStr "s1"); ("hostname", VStr "WIN-ADOE-PC")] "winadoepc" start).
  - intros w'. reflexivity.
  - reflexivity.
Defined.

Lemma process_system_binds_after_failed_lookup_witness :
  process_system (scripted [Response 500 VNone; Response 200 VNone])
    [VDict [("id", VStr "u1"); ("username", VStr "adoe")]]
    (VDict [("id", VStr "s1"); ("hostname", VStr "WIN-ADOE-PC")]) start
  = (Ok tt,
     World [GET "https://console.jumpcloud.com/api/v2/systems/s1/associations?type=user";
            POST "https://console.jumpcloud.com/api/v2/systems/s1/associations"
                 (VDict [("op", VStr "add"); ("type", VStr "user"); ("id", VStr "u1")])] 0).
Proof.
  rewrite (process_system_binds_after_failed_lookup
             (scripted [Response 500 VNone; Response 200 VNone])
             [VDict [("id", VStr "u1"); ("username", VStr "adoe")]]
             [("id", VStr "s1"); ("hostname", VStr "WIN-ADOE-PC")]
             [("id", VStr "u1"); ("username", VStr "adoe")]
             "winadoepc" (VStr "adoe") (VStr "u1") start
             ltac:(intros w'; reflexivity) eq_refl ltac:(intros w'; reflexivity)
             eq_refl eq_refl).
  vm_compute. reflexivity.
Defined.

Lemma process_system_without_match_sends_no_post_witness :
  process_system (scripted [Response 200 (VList [])])
    [VDict [("id", VStr "u1"); ("username", VStr "bob")]]
    (VDict [("id", VStr "s1"); ("hostname", VStr "WIN-ADOE-PC")]) start
  = (Ok tt,
     World [GET "https://console.jumpcloud.com/api/v2/systems/s1/associations?type=user"] 0).
Proof.
  apply (process_system_without_match_sends_no_post
           (scripted [Response 200 (VList [])])
           [VDict [("id", VStr "u1"); ("username", VStr "bob")]]
           [("id", VStr "s1"); ("hostname", VStr "WIN-ADOE-PC")] "winadoepc" start).
  - intros w'. reflexivity.
  - reflexivity.
  - constructor; [|constructor]. exists "bob". split; [intros w; reflexivity | reflexivity].
Defined.

Lemma process_system_nameless_match_witness :
  process_system (scripted [Response 200 (VList [])])
    [VDict [("id", VStr "u1"); ("username", VStr "bob")];
     VDict [("id", VStr "u0"); ("email", VStr "x@example.org")];
     VDict [("id", VStr "u2"); ("username", VStr "adoe")]]
    (VDict [("id", VStr "s1"); ("hostname", VStr "WIN-ADOE-PC")]) start
  = (Raise KeyError,
     World [GET "https://console.jumpcloud.com/api/v2/systems/s1/associations?type=user"] 0).
Proof.
  apply (process_system_nameless_match
           (scripted [Response 200 (VList [])]) _
           [("id", VStr "s1"); ("hostname", VStr "WIN-ADOE-PC")]
           [("id", VStr "u0"); ("email", VStr "x@example.org")] "winadoepc"
           [VDict [("id", VStr "u1"); ("username", VStr "bob")]]
           [VDict [("id", VStr "u2"); ("username", VStr "adoe")]] start).
  - reflexivity.
  - intros w'. reflexivity.
  - reflexivity.
  - constructor; [|constructor]. exists "bob". split; [intros w; reflexivity | reflexivity].
  - reflexivity.
Defined.

Lemma process_system_match_without_id_witness :
  process_system (scripted [Response 200 (VList [])])
    [VDict [("username", VStr "adoe")]]
    (VDict [("id", VStr "s1"); ("hostname", VStr "WIN-ADOE-PC")]) start
  = (Raise KeyError,
     World [GET "https://console.jumpcloud.com/api/v2/systems/s1/associations?type=user"] 0).
Proof.
  apply (process_system_match_without_id
           (scripted [Response 200 (VList [])])
           [VDict [("username", VStr "adoe")]]
           [("id", VStr "s1"); ("hostname", VStr "WIN-ADOE-PC")]
           [("username", VStr "adoe")] "winadoepc" (VStr "adoe") start).
  - intros w'. reflexivity.
  - reflexivity.
  - intros w'. reflexivity.
  - reflexivity.
  - reflexivity.
Defined.

(** ** Whole runs, for every service *)

Section Run.

Variable service : list request -> request -> reply.
Variable clock : nat -> Z.

(** X26. When no fetched system passes the recency filter, the run ends
    normally right after the two fetches: no lookup and no bind request
    is sent. *)
Theorem main_without_recent_systems
    (fuel : nat) (w : world) (users : list value) (w1 : world)
    (systems : list value) (w2 w3 : world) :
  get_all service fuel "systemusers" false w = (Ok users, w1) ->
  get_all service fuel "systems" false w1 = (Ok systems, w2) ->
  recent_systems clock systems w2 = (Ok [], w3) ->
  main service clock fuel w = (Ok tt, w3) /\ log w3 = log w2.
Proof.
  intros Husers Hsystems Hrecent. split.
  - unfold main, bind. now rewrite Husers, Hsystems, Hrecent.
  - exact (proj1 (recent_systems_effects clock systems w2 _ w3 Hrecent)).
Qed.

Lemma page_requests_are_gets endpoint use_v2 limit skip n :
  forallb is_get (page_requests endpoint use_v2 limit skip n) = true.
Proof.
  revert skip. induction n as [|n IH]; intros skip; [reflexivity|].
  cbn [page_requests forallb is_get andb]. apply IH.
Qed.

(** With no users to match, the loop body sends at most the lookup. *)
Lemma process_system_no_users (system : value) (w : world) :
  exists l,
    log (snd (process_system service [] system w)) = log w ++ l
    /\ forallb is_get l = true.
Proof.
  assert (Hnil : exists l, log w = log w ++ l /\ forallb is_get l = true).
  { exists []. now rewrite app_nil_r. }
  unfold process_system. unfold bind at 1.
  destruct system as [| | | | |d]; try exact Hnil.
  cbn [dict_get ret]. unfold bind at 1.
  unfold clean_name_of, bind at 1 2, dict_get, str_lower, ret.
  destruct (match Py.lookup d "hostname" with Some x => x | None => VStr "" end);
    try exact Hnil.
  unfold bind at 1. rewrite get_bound_users_reply.
  exists [bound_users_request (id_of d)]. split; [|reflexivity].
  fold (id_of d).
  destruct (Py.truthy (bound_users_of (service (log w) (bound_users_request (id_of d)))));
    reflexivity.
Qed.

Lemma for_each_no_users (recent : list value) :
  forall w, exists l,
    log (snd (for_each recent (process_system service []) w)) = log w ++ l
    /\ forallb is_get l = true.
Proof.
  induction recent as [|system recent IH]; intros w.
  - exists []. cbn. now rewrite app_nil_r.
  - cbn [for_each]. unfold bind.
    destruct (process_system_no_users system w) as (l1 & Hl1 & Hg1).
    destruct (process_system service [] system w) as [[[]|e|] w1]; cbn [snd] in Hl1;
      [|exists l1; now split..].
    destruct (IH w1) as (l2 & Hl2 & Hg2).
    exists (l1 ++ l2). split.
    + now rewrite Hl2, Hl1, app_assoc.
    + rewrite forallb_app. now rewrite Hg1, Hg2.
Qed.

(** X27. When the fetch of the users returns nothing, the run changes no
    binding: however many systems are recent and whatever the service
    answers, every request of the run is a GET. *)
Theorem main_without_users_only_reads (fuel : nat) (w w1 : world) :
  get_all service fuel "systemusers" false w = (Ok [], w1) ->
  exists l,
    log (snd (main service clock fuel w)) = log w ++ l
    /\ forallb is_get l = true.
Proof.
  intros Husers.
  destruct (get_all_loop_requests service "systemusers" false 100 fuel [] 0 ∅ w)
    as (n1 & _ & Hlog1).
  fold (get_all service fuel "systemusers" false w) in Hlog1.
  rewrite Husers in Hlog1. cbn [snd] in Hlog1.
  destruct (get_all_loop_requests service "systems" false 100 fuel [] 0 ∅ w1)
    as (n2 & _ & Hlog2).
  fold (get_all service fuel "systems" false w1) in Hlog2.
  unfold main, bind. rewrite Husers.
  destruct (get_all service fuel "systems" false w1) as [[systems|e|] w2]; cbn [snd] in Hlog2;
    try (exists (page_requests "systemusers" false 100 0 n1
                 ++ page_requests "systems" false 100 0 n2);
         rewrite Hlog2, Hlog1; cbn [log]; rewrite app_assoc, forallb_app,
           !page_requests_are_gets; now split).
  destruct (recent_systems clock systems w2) as [[recent|e|] w3] eqn:Hrecent;
    destruct (recent_systems_effects clock systems w2 _ w3 Hrecent) as [Hlog3 _];
    try (exists (page_requests "systemusers" false 100 0 n1
                 ++ page_requests "systems" false 100 0 n2);
         cbn [snd]; rewrite Hlog3, Hlog2, Hlog1; cbn [log]; rewrite app_assoc, forallb_app,
           !page_requests_are_gets; now split).
  destruct (for_each_no_users recent w3) as (l & Hl & Hg).
  exists ((page_requests "systemusers" false 100 0 n1
           ++ page_requests "systems" false 100 0 n2) ++ l).
  split.
  - rewrite Hl, Hlog3, Hlog2, Hlog1. cbn [log]. now rewrite !app_assoc.
  - now rewrite !forallb_app, !page_requests_are_gets, Hg.
Qed.

End Run.

Lemma main_without_recent_systems_witness :
  main (scripted [page [VDict [("id", VStr "u1"); ("username", VStr "adoe")]]; page [];
                  page [VDict [("id", VStr "s1"); ("hostname", VStr "WIN-ADOE-PC");
                               ("created", VStr "2024-04-01T10:00:00Z")];
                        VDict [("id", VStr "s2"); ("hostname", VStr "ADOE-MAC")]];
                  page []])
       (fun _ => 63850154400000000) 3 start
  = (Ok tt,
     World (page_requests "systemusers" false 100 0 2
            ++ page_requests "systems" false 100 0 2) 1).
Proof.
  refine (proj1 (main_without_recent_systems _ (fun _ => 63850154400000000) 3 start
                   [VDict [("id", VStr "u1"); ("username", VStr "adoe")]]
                   (World (page_requests "systemusers" false 100 0 2) 0)
                   [VDict [("id", VStr "s1"); ("hostname", VStr "WIN-ADOE-PC");
                           ("created", VStr "2024-04-01T10:00:00Z")];
                    VDict [("id", VStr "s2"); ("hostname", VStr "ADOE-MAC")]]
                   (World (page_requests "systemusers" false 100 0 2
                           ++ page_requests "systems" false 100 0 2) 0)
                   _ _ _ _)); vm_compute; reflexivity.
Defined.

Lemma main_without_users_only_reads_witness :
  let service :=
    scripted [Response 503 VNone;
              page [VDict [("id", VStr "s1"); ("hostname", VStr "WIN-ADOE-PC");
                           ("created", VStr "2024-05-01T10:00:00Z")]];
              page [];
              Response 200 (VList [])] in
  exists l,
    log (snd (main service (fun _ => 63850154400000000) 3 start)) = l
    /\ forallb is_get l = true.
Proof.
  intros service.
  destruct (main_without_users_only_reads service (fun _ => 63850154400000000) 3 start
              (World (page_requests "systemusers" false 100 0 1) 0)
              ltac:(vm_compute; reflexivity)) as (l & Hl & Hg).
  exists l. split; [exact Hl | exact Hg].
Defined.
